(** * SHE, Allegro 4 backend (src/she/she_alleg4.cpp)

    A shallow embedding of the Surface / EventQueue / Display / System
    classes of the Allegro 4 backend of the SHE layer, and the properties
    of them that the design document states.

    The build that is modelled is the Windows one with the window-resize
    patch of Allegro (WIN32 and ALLEGRO4_WITH_RESIZE_PATCH defined,
    FULLSCREEN_PLATFORM not defined): the constructor of [Alleg4Display]
    assigns [unique_display], which is only declared under WIN32, and the
    resize flag is only ever raised by [resize_callback], which exists
    only with the patch.

    C [int]s are modelled by [Z]; the only arithmetic the file does on
    them is the division [SCREEN_W/m_scale], written [Z.quot] as C
    truncates, and the bit operations on [display_flags]. *)

From stdpp Require Import base option list numbers strings gmap.

Open Scope Z_scope.

(** ** she::Event *)

Module Event.

(** [enum Type { None, DropFiles }] *)
Inductive Type_ : Set := None | DropFiles.

Definition Files : Type := list string.

(** Modelled from the spec: class Event is declared in she.h, which is
    not under src/.  The spec gives it a kind and a payload that belongs
    to the kind, a list of file paths, with the invariant that the
    [None] kind carries no payload; the source reaches them through the
    setters [setType] and [setFiles] (called one after the other at
    lines 194-195) and through copy assignment (line 151).  The model is
    the two fields, a default-constructed event of the [None] kind and
    no file, and setters that keep the invariant of the spec: an event
    of the [None] kind holds no file. *)
Record t : Type := mk { m_type : Type_; m_files : Files }.

Definition new : t := mk None [].

Definition type (e : t) : Type_ := m_type e.
Definition files (e : t) : Files := m_files e.

(** Modelled from the spec: [setType] gives the event its kind; an event
    that becomes of the [None] kind carries no payload any more. *)
Definition setType (ty : Type_) (e : t) : t :=
  mk ty (match ty with None => [] | DropFiles => m_files e end).

(** Modelled from the spec: [setFiles] gives the event its payload; an
    event of the [None] kind carries none. *)
Definition setFiles (fs : Files) (e : t) : t :=
  mk (m_type e) (match m_type e with None => [] | DropFiles => fs end).

(** The invariant of the spec: the [None] kind carries no payload. *)
Definition well_formed (e : t) : Prop := m_type e = None → m_files e = [].

End Event.

(** ** Alleg4EventQueue *)

Module Alleg4EventQueue.

(** [std::vector<Event> m_events] *)
Record t : Type := mk { m_events : list Event.t }.

(** [Alleg4EventQueue()] *)
Definition new : t := mk [].

(** [void getEvent(Event& event)]: [event] is an in-out argument; the
    function returns its new value and the new state of the queue.
    With [m_events.size() > 0] the head is copy-assigned to [event]
    and erased, otherwise only [event.setType(Event::None)] runs. *)
Definition getEvent (this : t) (event : Event.t) : Event.t * t :=
  match m_events this with
  | head :: rest => (head, mk rest)
  | [] => (Event.setType Event.None event, this)
  end.

(** [void queueEvent(const Event& event)]: [m_events.push_back(event)]. *)
Definition queueEvent (this : t) (event : Event.t) : t :=
  mk (m_events this ++ [event]).

(** A run of pushes, and a run of [n] polls, each made with a freshly
    constructed [Event]; the events delivered are collected in
    order. *)
Definition queueEvents (this : t) (es : list Event.t) : t :=
  foldl queueEvent this es.

Fixpoint getEvents (n : nat) (this : t) : list Event.t * t :=
  match n with
  | O => ([], this)
  | S n' =>
      let '(e, this') := getEvent this Event.new in
      let '(es, this'') := getEvents n' this' in
      (e :: es, this'')
  end.

End Alleg4EventQueue.

(** ** The Allegro 4 backend

    Allegro is an external library: what follows is the part of its
    documented behaviour that the SHE classes rely on, as an executable
    model.  How the machine answers (whether a device installs, whether
    a mode is available, whether memory is left) is a field of the
    state, [driver], so every answer Allegro can give is covered. *)

(** A [T*]: [None] is the null pointer, [Some a] an address. *)
Definition ptr : Type := option positive.
Definition NULL : ptr := None.

(** [BITMAP]: [w], [h] and the lines of pixels ([line[y][x]]). *)
Record BITMAP : Type := { bmp_w : Z; bmp_h : Z; bmp_line : list (list Z) }.

(** The lines are [h] rows of [w] pixels. *)
Definition bitmap_wf (b : BITMAP) : Prop :=
  0 ≤ bmp_w b ∧ 0 ≤ bmp_h b ∧
  length (bmp_line b) = Z.to_nat (bmp_h b) ∧
  Forall (λ row, length row = Z.to_nat (bmp_w b)) (bmp_line b).

(** The pixel at column [x] of line [y]. *)
Definition pixel_at (lines : list (list Z)) (x y : nat) : option Z :=
  row ← lines !! y; row !! x.

(** [getpixel(b, x, y)] inside the bitmap, [None] outside of it. *)
Definition getpixel (b : BITMAP) (x y : Z) : option Z :=
  if bool_decide (0 ≤ x ∧ 0 ≤ y)
  then pixel_at (bmp_line b) (Z.to_nat x) (Z.to_nat y)
  else None.

(** The calls made to Allegro, in a log kept with its state: it lets a
    property say which backend calls an operation made. *)
Inductive Call : Type :=
| call_install_mouse
| call_install_keyboard
| call_set_color_depth (depth : Z)
| call_set_gfx_mode (w h : Z)
| call_set_display_switch_callback
| call_set_resize_callback
| call_acknowledge_resize
| call_create_bitmap (w h : Z)
| call_destroy_bitmap (bmp : ptr)
| call_blit (src dest : ptr) (s_x s_y d_x d_y w h : Z)
| call_stretch_blit (src dest : ptr) (s_x s_y s_w s_h d_x d_y d_w d_h : Z).

(** The answers of the machine: the value each installing call returns
    with the text it leaves in [allegro_error] when it fails, if it
    leaves one; the colour depth of the desktop; whether a bitmap of a
    given size can be allocated. *)
Record Driver : Type := {
  drv_install_mouse : Z * option string;
  drv_install_keyboard : Z * option string;
  drv_set_gfx_mode : Z → Z → Z * option string;
  drv_desktop_color_depth : Z;
  drv_can_alloc : Z → Z → bool;
}.

Record Allegro : Type := {
  driver : Driver;
  allegro_error : string;
  SCREEN_W : Z;                  (* gfx_driver->w *)
  SCREEN_H : Z;                  (* gfx_driver->h *)
  screen : ptr;
  window_w : Z;                  (* the client area the window system *)
  window_h : Z;                  (* last gave to the window           *)
  bitmaps : gmap positive BITMAP;   (* the bitmaps that are allocated *)
  calls : list Call;
}.

Definition log (c : Call) (a : Allegro) : Allegro :=
  {| driver := driver a; allegro_error := allegro_error a;
     SCREEN_W := SCREEN_W a; SCREEN_H := SCREEN_H a; screen := screen a;
     window_w := window_w a; window_h := window_h a;
     bitmaps := bitmaps a; calls := calls a ++ [c] |}.

Definition set_allegro_error (msg : string) (a : Allegro) : Allegro :=
  {| driver := driver a; allegro_error := msg;
     SCREEN_W := SCREEN_W a; SCREEN_H := SCREEN_H a; screen := screen a;
     window_w := window_w a; window_h := window_h a;
     bitmaps := bitmaps a; calls := calls a |}.

Definition set_bitmaps (m : gmap positive BITMAP) (a : Allegro) : Allegro :=
  {| driver := driver a; allegro_error := allegro_error a;
     SCREEN_W := SCREEN_W a; SCREEN_H := SCREEN_H a; screen := screen a;
     window_w := window_w a; window_h := window_h a;
     bitmaps := m; calls := calls a |}.

Definition set_screen (w h : Z) (p : ptr) (a : Allegro) : Allegro :=
  {| driver := driver a; allegro_error := allegro_error a;
     SCREEN_W := w; SCREEN_H := h; screen := p;
     window_w := window_w a; window_h := window_h a;
     bitmaps := bitmaps a; calls := calls a |}.

Definition set_window (w h : Z) (a : Allegro) : Allegro :=
  {| driver := driver a; allegro_error := allegro_error a;
     SCREEN_W := SCREEN_W a; SCREEN_H := SCREEN_H a; screen := screen a;
     window_w := w; window_h := h;
     bitmaps := bitmaps a; calls := calls a |}.

(** A bitmap of [w] by [h] pixels (the pixels of a new bitmap are not
    specified by Allegro; the model has them 0). *)
Definition blank_bitmap (w h : Z) : BITMAP :=
  {| bmp_w := w; bmp_h := h;
     bmp_line := replicate (Z.to_nat h) (replicate (Z.to_nat w) 0) |}.

(** Allocation of a bitmap at an address that is not in use. *)
Definition alloc_bitmap (b : BITMAP) (a : Allegro) : positive * Allegro :=
  let p := fresh (dom (bitmaps a)) in
  (p, set_bitmaps (<[p := b]> (bitmaps a)) a).

(** [create_bitmap(w, h)]: a new memory bitmap, or NULL when it cannot be
    allocated. *)
Definition create_bitmap (w h : Z) (a : Allegro) : ptr * Allegro :=
  let a := log (call_create_bitmap w h) a in
  if drv_can_alloc (driver a) w h then
    let '(p, a) := alloc_bitmap (blank_bitmap w h) a in (Some p, a)
  else (NULL, a).

(** [destroy_bitmap(bmp)]: frees the bitmap; nothing for NULL. *)
Definition destroy_bitmap (bmp : ptr) (a : Allegro) : Allegro :=
  let a := log (call_destroy_bitmap bmp) a in
  match bmp with
  | Some p => set_bitmaps (delete p (bitmaps a)) a
  | None => a
  end.

(** [install_mouse()], [install_keyboard()]: the value returned; a
    failure (a negative value) may leave its text in [allegro_error]. *)
Definition answer (r : Z * option string) (a : Allegro) : Z * Allegro :=
  (r.1,
   if bool_decide (r.1 < 0)
   then set_allegro_error (default (allegro_error a) r.2) a
   else a).

Definition install_mouse (a : Allegro) : Z * Allegro :=
  answer (drv_install_mouse (driver a)) (log call_install_mouse a).

Definition install_keyboard (a : Allegro) : Z * Allegro :=
  answer (drv_install_keyboard (driver a)) (log call_install_keyboard a).

(** [set_gfx_mode(GFX_AUTODETECT_WINDOWED, w, h, 0, 0)]: on success the
    window and [screen] are [w] by [h]. *)
Definition set_gfx_mode (w h : Z) (a : Allegro) : Z * Allegro :=
  let a := log (call_set_gfx_mode w h) a in
  let r := drv_set_gfx_mode (driver a) w h in
  if bool_decide (r.1 < 0) then answer r a
  else
    let '(p, a) := alloc_bitmap (blank_bitmap w h) a in
    (r.1, set_screen w h (Some p) (set_window w h a)).

(** [acknowledge_resize()] (resize patch): [screen] is made again at the
    size the window now has, which [SCREEN_W] and [SCREEN_H] then
    report. *)
Definition acknowledge_resize (a : Allegro) : Allegro :=
  let a := log call_acknowledge_resize a in
  let a := match screen a with
           | Some p => set_bitmaps (delete p (bitmaps a)) a
           | None => a
           end in
  let '(p, a) := alloc_bitmap (blank_bitmap (window_w a) (window_h a)) a in
  set_screen (window_w a) (window_h a) (Some p) a.

(** *** blit

    [blit(src, dest, s_x, s_y, d_x, d_y, w, h)] clips the rectangle
    against the source and against the destination (whose clipping
    rectangle is the whole bitmap, as [create_bitmap] leaves it), and
    copies what is left line by line. *)

Record BlitArea : Type :=
  { ba_s_x : Z; ba_s_y : Z; ba_d_x : Z; ba_d_y : Z; ba_w : Z; ba_h : Z }.

(** Clipping on one axis: [s] and [d] are the origins in source and
    destination, [n] the extent, [s_n] and [d_n] the sizes of the two
    bitmaps on that axis.  Source left or top, source right or bottom,
    destination left or top, destination right or bottom. *)
Definition clip_axis (s_n d_n s d n : Z) : Z * Z * Z :=
  let '(s, d, n) := if bool_decide (s < 0) then (0, d - s, n + s) else (s, d, n) in
  let n := if bool_decide (s + n > s_n) then s_n - s else n in
  let '(s, d, n) := if bool_decide (d < 0) then (s - d, 0, n + d) else (s, d, n) in
  let n := if bool_decide (d + n > d_n) then d_n - d else n in
  (s, d, n).

Definition blit_clip (src dest : BITMAP) (s_x s_y d_x d_y w h : Z)
  : option BlitArea :=
  if bool_decide (s_x >= bmp_w src ∨ s_y >= bmp_h src ∨
                  d_x >= bmp_w dest ∨ d_y >= bmp_h dest)
  then None
  else
    let '(s_x, d_x, w) := clip_axis (bmp_w src) (bmp_w dest) s_x d_x w in
    let '(s_y, d_y, h) := clip_axis (bmp_h src) (bmp_h dest) s_y d_y h in
    if bool_decide (w ≤ 0 ∨ h ≤ 0) then None
    else Some {| ba_s_x := s_x; ba_s_y := s_y; ba_d_x := d_x; ba_d_y := d_y;
                 ba_w := w; ba_h := h |}.

(** One line: [w] pixels of [srow] from [s_x] on replace those of [drow]
    from [d_x] on. *)
Definition blit_line (s_x d_x w : nat) (srow drow : list Z) : list Z :=
  take d_x drow ++ take w (drop s_x srow) ++ drop (d_x + w) drow.

(** [h] lines, from line [s_y] of the source to line [d_y] of the
    destination. *)
Definition blit_lines (s_x s_y d_x d_y w h : nat) (src dest : list (list Z))
  : list (list Z) :=
  take d_y dest ++
  zip_with (blit_line s_x d_x w) (take h (drop s_y src)) (take h (drop d_y dest)) ++
  drop (d_y + h) dest.

Definition blit_bitmap (src dest : BITMAP) (s_x s_y d_x d_y w h : Z) : BITMAP :=
  match blit_clip src dest s_x s_y d_x d_y w h with
  | Some r =>
      {| bmp_w := bmp_w dest; bmp_h := bmp_h dest;
         bmp_line :=
           blit_lines (Z.to_nat (ba_s_x r)) (Z.to_nat (ba_s_y r))
                      (Z.to_nat (ba_d_x r)) (Z.to_nat (ba_d_y r))
                      (Z.to_nat (ba_w r)) (Z.to_nat (ba_h r))
                      (bmp_line src) (bmp_line dest) |}
  | None => dest
  end.

(** [stretch_blit]: every pixel of the destination rectangle takes the
    pixel of the source rectangle at the same relative place. *)
Definition stretch_bitmap (src dest : BITMAP)
    (s_x s_y s_w s_h d_x d_y d_w d_h : Z) : BITMAP :=
  {| bmp_w := bmp_w dest; bmp_h := bmp_h dest;
     bmp_line :=
       imap (λ y drow,
         imap (λ x px,
           if bool_decide (d_x ≤ Z.of_nat x < d_x + d_w ∧
                           d_y ≤ Z.of_nat y < d_y + d_h)
           then default px (getpixel src
                              (s_x + ((Z.of_nat x - d_x) * s_w) `quot` d_w)
                              (s_y + ((Z.of_nat y - d_y) * s_h) `quot` d_h))
           else px) drow) (bmp_line dest) |}.

(** The two calls on allocated bitmaps; [None] when a pointer is null or
    is not the address of a bitmap (Allegro asserts, or reads through
    it). *)
Definition deref_bitmap (bmp : ptr) (a : Allegro) : option BITMAP :=
  p ← bmp; bitmaps a !! p.

Definition blit (src dest : ptr) (s_x s_y d_x d_y w h : Z) (a : Allegro)
  : option Allegro :=
  let a := log (call_blit src dest s_x s_y d_x d_y w h) a in
  s ← deref_bitmap src a;
  d ← deref_bitmap dest a;
  p ← dest;
  Some (set_bitmaps (<[p := blit_bitmap s d s_x s_y d_x d_y w h]> (bitmaps a)) a).

Definition stretch_blit (src dest : ptr) (s_x s_y s_w s_h d_x d_y d_w d_h : Z)
    (a : Allegro) : option Allegro :=
  let a := log (call_stretch_blit src dest s_x s_y s_w s_h d_x d_y d_w d_h) a in
  s ← deref_bitmap src a;
  d ← deref_bitmap dest a;
  p ← dest;
  Some (set_bitmaps
          (<[p := stretch_bitmap s d s_x s_y s_w s_h d_x d_y d_w d_h]> (bitmaps a)) a).

(** ** The state of the program

    The state of Allegro, the three [static volatile int]s of the file,
    and the [Alleg4Surface] objects that [new] has allocated. *)

Inductive DestroyFlag : Set := NoDestroy | AutoDestroy.

Global Instance DestroyFlag_eq_dec : EqDecision DestroyFlag.
Proof. solve_decision. Defined.

(** The members of an [Alleg4Surface]. *)
Record Alleg4Surface_t : Type := { m_bmp : ptr; m_destroy : DestroyFlag }.

Record World : Type := {
  allegro : Allegro;
  display_flags : Z;
  original_width : Z;
  original_height : Z;
  surfaces : gmap positive Alleg4Surface_t;
}.

Definition DISPLAY_FLAG_FULL_REFRESH : Z := 1.
Definition DISPLAY_FLAG_WINDOW_RESIZE : Z := 2.

Definition set_allegro (a : Allegro) (w : World) : World :=
  {| allegro := a; display_flags := display_flags w;
     original_width := original_width w; original_height := original_height w;
     surfaces := surfaces w |}.

Definition set_display_flags (f : Z) (w : World) : World :=
  {| allegro := allegro w; display_flags := f;
     original_width := original_width w; original_height := original_height w;
     surfaces := surfaces w |}.

Definition set_original (ow oh : Z) (w : World) : World :=
  {| allegro := allegro w; display_flags := display_flags w;
     original_width := ow; original_height := oh;
     surfaces := surfaces w |}.

Definition set_surfaces (m : gmap positive Alleg4Surface_t) (w : World) : World :=
  {| allegro := allegro w; display_flags := display_flags w;
     original_width := original_width w; original_height := original_height w;
     surfaces := m |}.

(** The state in which the program starts: the statics are 0, nothing
    is allocated, no graphics mode is set. *)
Definition boot (drv : Driver) : World :=
  {| allegro := {| driver := drv; allegro_error := ""; SCREEN_W := 0;
                   SCREEN_H := 0; screen := NULL; window_w := 0;
                   window_h := 0; bitmaps := ∅; calls := [] |};
     display_flags := 0; original_width := 0; original_height := 0;
     surfaces := ∅ |}.

(** *** The callbacks *)

(** [display_switch_in_callback()] *)
Definition display_switch_in_callback (w : World) : World :=
  set_display_flags (Z.lor (display_flags w) DISPLAY_FLAG_FULL_REFRESH) w.

(** [RESIZE_DISPLAY_EVENT], of the resize patch. *)
Record RESIZE_DISPLAY_EVENT : Type := {
  old_w : Z; old_h : Z; new_w : Z; new_h : Z;
  is_maximized : bool; is_restored : bool;
}.

(** [resize_callback(ev)] *)
Definition resize_callback (ev : RESIZE_DISPLAY_EVENT) (w : World) : World :=
  let w := if is_maximized ev then set_original (old_w ev) (old_h ev) w else w in
  set_display_flags (Z.lor (display_flags w) DISPLAY_FLAG_WINDOW_RESIZE) w.

(** A geometry-change notification: the window system has given the
    window its new size, and Allegro calls the resize callback. *)
Definition geometry_change (ev : RESIZE_DISPLAY_EVENT) (w : World) : World :=
  resize_callback ev (set_allegro (set_window (new_w ev) (new_h ev) (allegro w)) w).

(** ** Computations

    A method runs on the state and returns normally, throws a
    [DisplayCreationException], or has no defined behaviour (a failed
    [ASSERT], a null or dangling pointer read through). *)

Record DisplayCreationException : Type := { what : string }.

Inductive result (A : Type) : Type :=
| Ok (a : A)
| Throw (e : DisplayCreationException)
| Fault.
Arguments Ok {A} a.
Arguments Throw {A} e.
Arguments Fault {A}.

Definition M (A : Type) : Type := World → result A * World.

Global Instance M_ret : MRet M := λ A a w, (Ok a, w).

Global Instance M_bind : MBind M := λ A B f m w,
  match m w with
  | (Ok a, w') => f a w'
  | (Throw e, w') => (Throw e, w')
  | (Fault, w') => (Fault, w')
  end.

Definition throw {A} (e : DisplayCreationException) : M A := λ w, (Throw e, w).
Definition fault {A} : M A := λ w, (Fault, w).

(** [ASSERT(b)], as in a debug build: a condition that fails ends the
    run. *)
Definition ASSERT (b : bool) : M unit := if b then mret () else fault.

Definition gets {A} (f : World → A) : M A := λ w, (Ok (f w), w).
Definition modify (f : World → World) : M unit := λ w, (Ok (), f w).

(** Calls to Allegro. *)
Definition call {A} (f : Allegro → A * Allegro) : M A := λ w,
  let '(x, a) := f (allegro w) in (Ok x, set_allegro a w).
Definition call_ (f : Allegro → Allegro) : M unit :=
  modify (λ w, set_allegro (f (allegro w)) w).
Definition call_defined (f : Allegro → option Allegro) : M unit := λ w,
  match f (allegro w) with
  | Some a => (Ok (), set_allegro a w)
  | None => (Fault, w)
  end.

(** Reading through a pointer. *)
Definition deref {A} (o : option A) : M A :=
  match o with Some x => mret x | None => fault end.

(** ** Alleg4Surface

    A [Surface*] is the address of an [Alleg4Surface_t] in [surfaces],
    or null. *)

Module Alleg4Surface.

(** [*this] *)
Definition members (this : ptr) : M Alleg4Surface_t :=
  p ← deref this;
  s ← gets (λ w, surfaces w !! p);
  deref s.

(** [*m_bmp] *)
Definition bitmap (bmp : ptr) : M BITMAP :=
  b ← gets (λ w, deref_bitmap bmp (allegro w));
  deref b.

(** [new Alleg4Surface(bmp, destroy)] *)
Definition new (bmp : ptr) (destroy : DestroyFlag) : M ptr := λ w,
  let p := fresh (dom (surfaces w)) in
  (Ok (Some p),
   set_surfaces (<[p := {| m_bmp := bmp; m_destroy := destroy |}]> (surfaces w)) w).

(** [new Alleg4Surface(width, height)] *)
Definition create (width height : Z) : M ptr :=
  bmp ← call (create_bitmap width height);
  new bmp AutoDestroy.

(** [delete this]: the destructor, then the object is freed. *)
Definition delete (this : ptr) : M unit :=
  s ← members this;
  (if decide (m_destroy s = AutoDestroy)
   then call_ (destroy_bitmap (m_bmp s))
   else mret ());;
  p ← deref this;
  modify (λ w, set_surfaces (base.delete p (surfaces w)) w).

Definition dispose (this : ptr) : M unit := delete this.

Definition width (this : ptr) : M Z :=
  s ← members this; b ← bitmap (m_bmp s); mret (bmp_w b).

Definition height (this : ptr) : M Z :=
  s ← members this; b ← bitmap (m_bmp s); mret (bmp_h b).

Definition nativeHandle (this : ptr) : M ptr :=
  s ← members this; mret (m_bmp s).

Definition blitTo (this dest : ptr) (srcx srcy dstx dsty width height : Z)
  : M unit :=
  s ← members this;
  ASSERT (bool_decide (m_bmp s ≠ NULL));;
  ASSERT (bool_decide (dest ≠ NULL));;
  d ← members dest;
  ASSERT (bool_decide (m_bmp d ≠ NULL));;
  call_defined (blit (m_bmp s) (m_bmp d) srcx srcy dstx dsty width height).

End Alleg4Surface.

(** ** Alleg4Display *)

Module Alleg4Display.

(** The members; the queue, which the display owns alone, is held by
    value. *)
Record t : Type := mk {
  m_surface : ptr;
  m_scale : Z;
  m_queue : Alleg4EventQueue.t;
}.

Definition width : M Z := gets (λ w, SCREEN_W (allegro w)).
Definition height : M Z := gets (λ w, SCREEN_H (allegro w)).

Definition originalWidth : M Z :=
  ow ← gets original_width;
  if bool_decide (ow > 0) then mret ow else width.

Definition originalHeight : M Z :=
  oh ← gets original_height;
  if bool_decide (oh > 0) then mret oh else height.

Definition setScale (scale : Z) (this : t) : M t :=
  ASSERT (bool_decide (scale >= 1));;
  if bool_decide (m_scale this = scale) then mret this
  else
    let this := mk (m_surface this) scale (m_queue this) in
    sw ← width;
    sh ← height;
    newSurface ← Alleg4Surface.create (sw `quot` m_scale this) (sh `quot` m_scale this);
    (if bool_decide (m_surface this ≠ NULL)
     then Alleg4Surface.dispose (m_surface this)
     else mret ());;
    mret (mk newSurface (m_scale this) (m_queue this)).

Definition getSurface (this : t) : ptr := m_surface this.

Definition getEventQueue (this : t) : Alleg4EventQueue.t := m_queue this.

(** [Alleg4Display(width, height, scale)].  The assignment of
    [unique_display], the locking of the callback and [subclass_hwnd]
    touch nothing of the state modelled and are left out; the two
    registrations of callbacks are logged. *)
Definition new (width height scale : Z) : M t :=
  let this := mk NULL 0 Alleg4EventQueue.new in
  r ← call install_mouse;
  (if bool_decide (r < 0)
   then e ← gets (λ w, allegro_error (allegro w)); throw {| what := e |}
   else mret ());;
  r ← call install_keyboard;
  (if bool_decide (r < 0)
   then e ← gets (λ w, allegro_error (allegro w)); throw {| what := e |}
   else mret ());;
  depth ← gets (λ w, drv_desktop_color_depth (driver (allegro w)));
  call_ (log (call_set_color_depth depth));;
  r ← call (set_gfx_mode width height);
  (if bool_decide (r < 0)
   then e ← gets (λ w, allegro_error (allegro w)); throw {| what := e |}
   else mret ());;
  this ← setScale scale this;
  let this := mk (m_surface this) (m_scale this) Alleg4EventQueue.new in
  call_ (log call_set_display_switch_callback);;
  call_ (log call_set_resize_callback);;
  mret this.

(** [flip()]; the value returned comes with the members after the
    call. *)
Definition flip (this : t) : M (bool * t) :=
  flags ← gets display_flags;
  if bool_decide (Z.land flags DISPLAY_FLAG_WINDOW_RESIZE ≠ 0) then
    flags ← gets display_flags;
    modify (set_display_flags (Z.lxor flags DISPLAY_FLAG_WINDOW_RESIZE));;
    call_ acknowledge_resize;;
    let scale := m_scale this in
    let this := mk (m_surface this) 0 (m_queue this) in
    this ← setScale scale this;
    mret (false, this)
  else
    bmp ← Alleg4Surface.nativeHandle (m_surface this);
    scr ← gets (λ w, screen (allegro w));
    sw ← width;
    sh ← height;
    (if bool_decide (m_scale this = 1) then
       call_defined (blit bmp scr 0 0 0 0 sw sh)
     else
       b ← Alleg4Surface.bitmap bmp;
       call_defined (stretch_blit bmp scr 0 0 (bmp_w b) (bmp_h b) 0 0 sw sh));;
    mret (true, this).

End Alleg4Display.

(** ** Alleg4System: the factories *)

Module Alleg4System.

Definition createDisplay (width height scale : Z) : M Alleg4Display.t :=
  Alleg4Display.new width height scale.

Definition createSurface (width height : Z) : M ptr :=
  Alleg4Surface.create width height.

Definition createSurfaceFromNativeHandle (nativeHandle : ptr) : M ptr :=
  Alleg4Surface.new nativeHandle AutoDestroy.

End Alleg4System.

(** ** Reading a run *)

(** The state and the value of a run. *)
Definition state_after {A} (m : M A) (w : World) : World := (m w).2.
Definition value_of {A} (m : M A) (w : World) : result A := (m w).1.

(** [m] takes every state to a state related to it by [R], however it
    ends. *)
Definition keeps {A} (R : World → World → Prop) (m : M A) : Prop :=
  ∀ w, R w (m w).2.

(** The two recorded sizes are the same in both states. *)
Definition same_original (w w' : World) : Prop :=
  original_width w' = original_width w ∧ original_height w' = original_height w.

(** The three statics are the same in both states. *)
Definition same_statics (w w' : World) : Prop :=
  display_flags w' = display_flags w ∧ same_original w w'.

(** ** Creation of a display *)

(** The first of the three installing calls of the constructor of
    [Alleg4Display] that the machine refuses, if it refuses one, from
    the state [a] of Allegro: the diagnostic text of Allegro for it (the
    text the call leaves, or else the text that was there), and the
    calls made to Allegro by then. *)
Definition refusal (a : Allegro) (width height : Z)
  : option (string * list Call) :=
  let drv := driver a in
  let text (r : Z * option string) := default (allegro_error a) r.2 in
  if bool_decide ((drv_install_mouse drv).1 < 0) then
    Some (text (drv_install_mouse drv), [call_install_mouse])
  else if bool_decide ((drv_install_keyboard drv).1 < 0) then
    Some (text (drv_install_keyboard drv),
          [call_install_mouse; call_install_keyboard])
  else if bool_decide ((drv_set_gfx_mode drv width height).1 < 0) then
    Some (text (drv_set_gfx_mode drv width height),
          [call_install_mouse; call_install_keyboard;
           call_set_color_depth (drv_desktop_color_depth drv);
           call_set_gfx_mode width height])
  else None.

(** The machine never lacks memory for a bitmap. *)
Definition always_allocates (drv : Driver) : Prop :=
  ∀ w h : Z, drv_can_alloc drv w h = true.

(** ** The backbuffer of a display *)

(** The size of the backbuffer, as the application reads it:
    [getSurface()->width()] and [getSurface()->height()]. *)
Definition backbuffer_size (this : Alleg4Display.t) : M (Z * Z) :=
  bw ← Alleg4Surface.width (Alleg4Display.getSurface this);
  bh ← Alleg4Surface.height (Alleg4Display.getSurface this);
  mret (bw, bh).


(** The backbuffer of [this] is the allocated surface [p], which owns the
    allocated bitmap [b] of content [B]; [screen] is another allocated
    bitmap. *)
Definition backbuffer_at (this : Alleg4Display.t) (w : World)
    (p b : positive) (B : BITMAP) : Prop :=
  Alleg4Display.m_surface this = Some p ∧
  surfaces w !! p = Some {| m_bmp := Some b; m_destroy := AutoDestroy |} ∧
  bitmaps (allegro w) !! b = Some B ∧
  ∃ (ps : positive) (S : BITMAP),
    screen (allegro w) = Some ps ∧ bitmaps (allegro w) !! ps = Some S ∧ ps ≠ b.

(** The state of a display between two calls of its methods: the scale
    is at least 1, and the backbuffer has the physical size divided by
    the scale. *)
Definition display_ok (this : Alleg4Display.t) (w : World) : Prop :=
  1 ≤ Alleg4Display.m_scale this ∧
  ∃ (p b : positive) (B : BITMAP),
    backbuffer_at this w p b B ∧
    bmp_w B = SCREEN_W (allegro w) `quot` Alleg4Display.m_scale this ∧
    bmp_h B = SCREEN_H (allegro w) `quot` Alleg4Display.m_scale this.

(** The world after [setScale] has replaced a backbuffer: the new bitmap
    and the new surface are allocated, then the old surface [p], which
    owns the bitmap [b], is disposed of. *)
Definition rescaled (scale : Z) (old : option (positive * positive)) (w : World)
  : positive * positive * World :=
  let a := allegro w in
  let bw := SCREEN_W a `quot` scale in
  let bh := SCREEN_H a `quot` scale in
  let b' := fresh (dom (bitmaps a)) in
  let p' := fresh (dom (surfaces w)) in
  let a1 := set_bitmaps (<[b' := blank_bitmap bw bh]> (bitmaps a))
              (log (call_create_bitmap bw bh) a) in
  let s1 := <[p' := {| m_bmp := Some b'; m_destroy := AutoDestroy |}]> (surfaces w) in
  match old with
  | Some (p, b) =>
      (p', b', set_surfaces (delete p s1)
                 (set_allegro (destroy_bitmap (Some b) a1) w))
  | None => (p', b', set_surfaces s1 (set_allegro a1 w))
  end.


(** ** Runs of a display

    What happens to a display between its creation and its disposal:
    the notifications of the window system and the calls of the
    application. *)
Inductive Action : Type :=
| act_geometry_change (ev : RESIZE_DISPLAY_EVENT)
| act_switch_in
| act_flip
| act_setScale (scale : Z).

Definition perform (act : Action) (this : Alleg4Display.t) : M Alleg4Display.t :=
  match act with
  | act_geometry_change ev => modify (geometry_change ev);; mret this
  | act_switch_in => modify display_switch_in_callback;; mret this
  | act_flip => r ← Alleg4Display.flip this; mret r.2
  | act_setScale scale => Alleg4Display.setScale scale this
  end.

Fixpoint perform_all (acts : list Action) (this : Alleg4Display.t)
  : M Alleg4Display.t :=
  match acts with
  | [] => mret this
  | act :: acts => this ← perform act this; perform_all acts this
  end.

(** A display created and then taken through a run. *)
Definition created_then (width height scale : Z) (acts : list Action)
  : M Alleg4Display.t :=
  this ← Alleg4System.createDisplay width height scale;
  perform_all acts this.

(** The application respects the precondition of [setScale]. *)
Definition valid_action (act : Action) : Prop :=
  match act with
  | act_setScale scale => 1 ≤ scale
  | _ => True
  end.

(** *** The sizes recorded at a maximize *)

(** The changes of geometry of a run, in order. *)
Definition geometry_changes (acts : list Action) : list RESIZE_DISPLAY_EVENT :=
  omap (λ act, match act with act_geometry_change ev => Some ev | _ => None end) acts.

Definition recorded (ev : RESIZE_DISPLAY_EVENT) : Z * Z := (old_w ev, old_h ev).

(** The recorded sizes after one action, from the ones before: a
    notification of a maximize writes them, nothing else does. *)
Definition recorded_after (act : Action) (r : Z * Z) : Z * Z :=
  match act with
  | act_geometry_change ev => if is_maximized ev then recorded ev else r
  | _ => r
  end.

(** The sizes given as old by the last notification of a run that was a
    maximize. *)
Definition last_maximize (acts : list Action) : option (Z * Z) :=
  recorded <$> last (filter (λ ev, is_maximized ev = true) (geometry_changes acts)).

(** The reading of "a maximize transition is outstanding" that the
    statement of the design document on [originalWidth] is tested with:
    the last change of geometry of the run was a maximize, so the window
    has not been restored or resized since.  The sizes are the ones
    recorded at that change. *)
Definition outstanding_maximize (acts : list Action) : option (Z * Z) :=
  ev ← last (geometry_changes acts);
  if is_maximized ev then Some (recorded ev) else None.

(** ** Rectangles and surfaces, for [blitTo] *)

(** The rectangle of origin [(x, y)] and size [width] by [height] lies
    within the bitmap. *)
Definition inside (B : BITMAP) (x y width height : Z) : Prop :=
  0 ≤ x ∧ 0 ≤ y ∧ 0 ≤ width ∧ 0 ≤ height ∧
  x + width ≤ bmp_w B ∧ y + height ≤ bmp_h B.

(** [this] points to an allocated surface over the allocated bitmap [b],
    whose content is [B]. *)
Definition surface_over (w : World) (this : ptr) (b : positive) (B : BITMAP)
  : Prop :=
  ∃ (p : positive) (s : Alleg4Surface_t),
    this = Some p ∧ surfaces w !! p = Some s ∧ m_bmp s = Some b ∧
    bitmaps (allegro w) !! b = Some B ∧ bitmap_wf B.

(** ** Machines and states of the examples *)

(** A machine on which everything installs, every mode is available and
    memory is never short. *)
Definition desktop : Driver :=
  {| drv_install_mouse := (2, None);
     drv_install_keyboard := (0, None);
     drv_set_gfx_mode := λ _ _, (0, None);
     drv_desktop_color_depth := 32;
     drv_can_alloc := λ _ _, true |}.

(** The same machine without memory for any bitmap. *)
Definition no_memory : Driver :=
  {| drv_install_mouse := (2, None);
     drv_install_keyboard := (0, None);
     drv_set_gfx_mode := λ _ _, (0, None);
     drv_desktop_color_depth := 32;
     drv_can_alloc := λ _ _, false |}.


(** The same machine without a mouse. *)
Definition no_mouse : Driver :=
  {| drv_install_mouse := (-1, Some "No mouse driver");
     drv_install_keyboard := (0, None);
     drv_set_gfx_mode := λ _ _, (0, None);
     drv_desktop_color_depth := 32;
     drv_can_alloc := λ _ _, true |}.

(** A display of 64 by 48 at scale 1, as its creation leaves it on the
    [desktop] machine. *)
Definition small_display : Alleg4Display.t :=
  Alleg4Display.mk (Some 1%positive) 1 Alleg4EventQueue.new.
Definition small_display_world : World :=
  state_after (Alleg4System.createDisplay 64 48 1) (boot desktop).

(** A notification: the window, 64 by 48, is resized by hand to 80 by
    60. *)
Definition resize_by_hand : RESIZE_DISPLAY_EVENT :=
  {| old_w := 64; old_h := 48; new_w := 80; new_h := 60;
     is_maximized := false; is_restored := false |}.

(** A run: a window of 64 by 48 is maximized to 192 by 108, restored,
    and then resized by hand to 80 by 60, with a [flip] after each
    notification. *)
Definition maximize_restore_resize : list Action :=
  [ act_geometry_change {| old_w := 64; old_h := 48; new_w := 192; new_h := 108;
                           is_maximized := true; is_restored := false |};
    act_flip;
    act_geometry_change {| old_w := 192; old_h := 108; new_w := 64; new_h := 48;
                           is_maximized := false; is_restored := true |};
    act_flip;
    act_geometry_change resize_by_hand;
    act_flip ].

(** Two surfaces: surface 1 over a bitmap of 3 by 2 pixels that are all
    different, surface 2 over a black bitmap of 4 by 3. *)
Definition six_pixels : BITMAP :=
  {| bmp_w := 3; bmp_h := 2; bmp_line := [[11; 12; 13]; [21; 22; 23]] |}.

Definition two_surfaces : World :=
  set_surfaces
    (<[2%positive := {| m_bmp := Some 2%positive; m_destroy := AutoDestroy |}]>
       (<[1%positive := {| m_bmp := Some 1%positive; m_destroy := AutoDestroy |}]> ∅))
    (set_allegro
       (set_bitmaps
          (<[2%positive := blank_bitmap 4 3]> (<[1%positive := six_pixels]> ∅))
          (allegro (boot desktop)))
       (boot desktop)).

(** * Further code of the file

    The window procedure that turns a drop of files into an event, the
    destructor of the display, and what is needed to state properties of
    whole runs. *)

(** ** Interleaved use of the queue *)

Inductive QueueOp : Type :=
| op_queueEvent (e : Event.t)
| op_getEvent.

(** The events pushed by a sequence of operations, in order. *)
Definition pushed (ops : list QueueOp) : list Event.t :=
  omap (λ op, match op with op_queueEvent e => Some e | op_getEvent => None end) ops.

(** A sequence of operations on a queue: the events the polls return
    (each poll with a freshly constructed [Event]) and the queue at the
    end. *)
Fixpoint run_ops (ops : list QueueOp) (q : Alleg4EventQueue.t)
  : list Event.t * Alleg4EventQueue.t :=
  match ops with
  | [] => ([], q)
  | op_queueEvent e :: ops => run_ops ops (Alleg4EventQueue.queueEvent q e)
  | op_getEvent :: ops =>
      let '(e, q') := Alleg4EventQueue.getEvent q Event.new in
      let '(es, q'') := run_ops ops q' in
      (e :: es, q'')
  end.

(** An event that stands for an occurrence. *)
Definition occurrence (e : Event.t) : Prop := Event.type e ≠ Event.None.

Global Instance occurrence_dec (e : Event.t) : Decision (occurrence e).
Proof. unfold occurrence. destruct (Event.type e); [right|left]; congruence. Defined.

(** ** The window procedure (WIN32)

    The shell's side of a drop, [HDROP], is the list of the names of the
    files dropped, as strings of [TCHAR].  [DragQueryFile] is the Win32
    call, in the three uses the procedure makes of it. *)

Definition HDROP : Type := list string.

(** [DragQueryFile(hdrop, 0xFFFFFFFF, NULL, 0)]: the number of files. *)
Definition DragQueryFile_count (hdrop : HDROP) : nat := length hdrop.

(** [DragQueryFile(hdrop, index, NULL, 0)]: the length of the name of
    the file, without the terminator; 0 when there is no such file. *)
Definition DragQueryFile_length (hdrop : HDROP) (index : nat) : Z :=
  match hdrop !! index with
  | Some name => Z.of_nat (String.length name)
  | None => 0
  end.

(** [DragQueryFile(hdrop, index, buffer, cch)]: copies the name to the
    buffer, cut to [cch - 1] characters, and terminates it; the result
    is the string that the buffer then holds. *)
Definition DragQueryFile_copy (hdrop : HDROP) (index : nat) (cch : Z) : string :=
  match hdrop !! index with
  | Some name => String.substring 0 (Z.to_nat (cch - 1)) name
  | None => ""
  end.

Inductive Message : Type :=
| WM_DROPFILES (hdrop : HDROP)
| WM_other (msg : Z).

Section Wndproc.

(** [base::to_utf8] is declared in base/string.h, which is not part of
    this file: it is a parameter. *)
Variable to_utf8 : string → string.

(** The loop over the files: the names of positive length are
    converted and pushed back to [files]. *)
Definition drop_files (hdrop : HDROP) : Event.Files :=
  foldl (λ files index,
           let length := DragQueryFile_length hdrop index in
           if bool_decide (length > 0)
           then files ++ [to_utf8 (DragQueryFile_copy hdrop index (length + 1))]
           else files)
        [] (seq 0 (DragQueryFile_count hdrop)).

(** [wndproc(hwnd, msg, wparam, lparam)], on the display that
    [unique_display] points to (it does from the constructor to the
    destructor, which is when the procedure is installed): the display
    after the call, and the message handed on to [base_wndproc]. *)
Definition wndproc (msg : Message) (unique_display : Alleg4Display.t)
  : Alleg4Display.t * Message :=
  match msg with
  | WM_DROPFILES hdrop =>
      let files := drop_files hdrop in
      let ev := Event.setFiles files (Event.setType Event.DropFiles Event.new) in
      (Alleg4Display.mk
         (Alleg4Display.m_surface unique_display)
         (Alleg4Display.m_scale unique_display)
         (Alleg4EventQueue.queueEvent (Alleg4Display.getEventQueue unique_display) ev),
       msg)
  | WM_other _ => (unique_display, msg)
  end.

End Wndproc.

(** ** The destructor of the display *)

(** [set_gfx_mode(GFX_TEXT, 0, 0, 0, 0)]: the graphics mode is closed;
    [screen] is destroyed and no size is reported any more.  (The call
    is logged with the sizes it is given.) *)
Definition set_gfx_mode_text (a : Allegro) : Z * Allegro :=
  let a := log (call_set_gfx_mode 0 0) a in
  let a := match screen a with
           | Some p => set_bitmaps (delete p (bitmaps a)) a
           | None => a
           end in
  (0, set_screen 0 0 NULL a).

(** [~Alleg4Display()], which [dispose()] runs: the queue is deleted
    with the object, the backbuffer is disposed of, the graphics mode
    is closed.  ([unsubclass_hwnd] and the reset of [unique_display]
    touch nothing of the state modelled.) *)
Definition Alleg4Display_dispose (this : Alleg4Display.t) : M unit :=
  Alleg4Surface.dispose (Alleg4Display.m_surface this);;
  _ ← call set_gfx_mode_text;
  mret ().

(** A display created, taken through a run, and disposed of. *)
Definition lifetime (width height scale : Z) (acts : list Action) : M unit :=
  this ← created_then width height scale acts;
  Alleg4Display_dispose this.

(** ** What a display owns

    The bitmaps allocated are the backbuffer [b], [screen] and the
    bitmaps [m0] of others; the surfaces allocated are the backbuffer
    [p] and the surfaces [s0] of others. *)
Definition display_owns (this : Alleg4Display.t) (w : World)
    (m0 : gmap positive BITMAP) (s0 : gmap positive Alleg4Surface_t) : Prop :=
  1 ≤ Alleg4Display.m_scale this ∧
  ∃ (p b ps : positive) (B S : BITMAP),
    Alleg4Display.m_surface this = Some p ∧
    screen (allegro w) = Some ps ∧
    ps ≠ b ∧ m0 !! b = None ∧ m0 !! ps = None ∧ s0 !! p = None ∧
    bitmaps (allegro w) = <[b := B]> (<[ps := S]> m0) ∧
    surfaces w = <[p := {| m_bmp := Some b; m_destroy := AutoDestroy |}]> s0.

(** ** Flags *)

(** The full-refresh flag is up. *)
Definition full_refresh (w : World) : Prop :=
  Z.land (display_flags w) DISPLAY_FLAG_FULL_REFRESH ≠ 0.

(** The resize flag is up. *)
Definition window_resize (w : World) : Prop :=
  Z.land (display_flags w) DISPLAY_FLAG_WINDOW_RESIZE ≠ 0.

(** Notifications of changes of geometry, one after the other. *)
Definition geometry_changes_then (evs : list RESIZE_DISPLAY_EVENT) (w : World)
  : World :=
  foldl (λ w ev, geometry_change ev w) w evs.

(** ** Bitmaps with their lines *)

(** The display is in the state [display_ok] and, besides, the lines of
    the backbuffer and of [screen] are as their sizes say, [screen]
    being of the physical size. *)
Definition display_wf (this : Alleg4Display.t) (w : World)
    (b ps : positive) (B S : BITMAP) : Prop :=
  ∃ p : positive,
    Alleg4Display.m_surface this = Some p ∧
    surfaces w !! p = Some {| m_bmp := Some b; m_destroy := AutoDestroy |} ∧
    bitmaps (allegro w) !! b = Some B ∧
    screen (allegro w) = Some ps ∧ bitmaps (allegro w) !! ps = Some S ∧ ps ≠ b ∧
    bitmap_wf B ∧ bitmap_wf S ∧
    bmp_w S = SCREEN_W (allegro w) ∧ bmp_h S = SCREEN_H (allegro w) ∧
    bmp_w B = SCREEN_W (allegro w) `quot` Alleg4Display.m_scale this ∧
    bmp_h B = SCREEN_H (allegro w) `quot` Alleg4Display.m_scale this.

(** ** Uses of the factories *)

(** A surface is created and disposed of. *)
Definition surface_lifetime (width height : Z) : M unit :=
  s ← Alleg4System.createSurface width height;
  Alleg4Surface.dispose s.

(** The native handle of the backbuffer of a display is given to
    [createSurfaceFromNativeHandle], and the surface made is disposed
    of. *)
Definition wrap_backbuffer_and_dispose (this : Alleg4Display.t) : M unit :=
  handle ← Alleg4Surface.nativeHandle (Alleg4Display.getSurface this);
  s ← Alleg4System.createSurfaceFromNativeHandle handle;
  Alleg4Surface.dispose s.

(** ** Whether a recovery is due *)

(** A change of geometry makes a recovery due, a [flip] makes it not
    due, the other actions leave it as it is. *)
Definition resize_pending_after (act : Action) (pending : bool) : bool :=
  match act with
  | act_geometry_change _ => true
  | act_flip => false
  | _ => pending
  end.

Definition resize_pending (acts : list Action) (pending : bool) : bool :=
  foldl (λ pending act, resize_pending_after act pending) pending acts.

(** * Properties *)

(** ** The event queue *)

Section EventQueue.
Import Alleg4EventQueue.

Lemma m_events_queueEvents (q : t) (es : list Event.t) :
  m_events (queueEvents q es) = m_events q ++ es.
Proof.
  revert q; induction es as [|e es IH]; intros q; simpl.
  - by rewrite app_nil_r.
  - rewrite IH; simpl. by rewrite <- app_assoc.
Qed.

Lemma queue_eta (q : t) : q = mk (m_events q).
Proof. by destruct q. Qed.

Lemma getEvents_all (l : list Event.t) :
  getEvents (length l) (mk l) = (l, new).
Proof.
  induction l as [|e l IH]; simpl; [done|].
  by rewrite IH.
Qed.

(** From any queue: what was waiting comes first, then what was pushed,
    in the order of the pushes. *)
Lemma getEvents_queueEvents (q : t) (es : list Event.t) :
  getEvents (length (m_events q) + length es) (queueEvents q es)
  = (m_events q ++ es, new).
Proof.
  rewrite (queue_eta (queueEvents q es)), m_events_queueEvents.
  rewrite <- length_app. apply getEvents_all.
Qed.

(** A push behind waiting events does not overtake them. *)
Lemma getEvent_queueEvent_waiting (head : Event.t) (rest : list Event.t)
    (e ev : Event.t) :
  getEvent (queueEvent (mk (head :: rest)) e) ev = (head, mk (rest ++ [e])).
Proof. reflexivity. Qed.

(** C3: the queue is FIFO and a poll always returns.  On the empty queue
    [getEvent] gives an event of the [None] kind and leaves the queue
    empty; a push on the empty queue followed by a poll gives back
    exactly the event pushed; N pushes followed by N polls give back the
    N events in the order of the pushes, and the queue is empty again. *)
Theorem C3_event_queue_fifo :
  (∀ ev : Event.t,
     Event.type (getEvent new ev).1 = Event.None ∧ (getEvent new ev).2 = new) ∧
  (∀ e ev : Event.t, getEvent (queueEvent new e) ev = (e, new)) ∧
  (∀ es : list Event.t,
     getEvents (length es) (queueEvents new es) = (es, new)).
Proof.
  split; [|split].
  - intros ev. by split.
  - intros e ev. reflexivity.
  - intros es. apply (getEvents_queueEvents new es).
Qed.

(** The events made through the interface of [Event] respect its
    invariant. *)
Lemma new_well_formed : Event.well_formed Event.new.
Proof. done. Qed.

Lemma setType_well_formed (ty : Event.Type_) (e : Event.t) :
  Event.well_formed (Event.setType ty e).
Proof. unfold Event.well_formed. by destruct ty. Qed.

Lemma setFiles_well_formed (fs : Event.Files) (e : Event.t) :
  Event.well_formed (Event.setFiles fs e).
Proof.
  unfold Event.well_formed, Event.setFiles. simpl. by intros ->.
Qed.

(** C7: an event of the [None] kind that a poll delivers carries no
    payload.  When the events in the queue respect the invariant of
    [Event] and [getEvent] returns an event of the [None] kind, the
    event has no file, whatever the event object of the caller held
    before the call: on the empty queue [getEvent] sets the kind of that
    object to [None], which leaves it without payload, and otherwise it
    assigns to it the event at the head. *)
Theorem C7_None_event_has_no_payload (q : t) (ev : Event.t) :
  Forall Event.well_formed (m_events q) →
  Event.type (getEvent q ev).1 = Event.None →
  Event.files (getEvent q ev).1 = [].
Proof.
  intros Hq. destruct q as [[|head rest]]; unfold getEvent; simpl.
  - done.
  - intros Hnone. simpl in Hq. apply Forall_cons in Hq as [Hhead _].
    by apply Hhead.
Qed.

Lemma C7_None_event_has_no_payload_witness :
  let stale := Event.mk Event.DropFiles ["a.png"; "b.png"] in
  (Forall Event.well_formed (m_events new) ∧
   Event.type (getEvent new stale).1 = Event.None) ∧
  Event.files (getEvent new stale).1 = [].
Proof.
  intros stale.
  assert (H1 : Forall Event.well_formed (m_events new)) by constructor.
  assert (H2 : Event.type (getEvent new stale).1 = Event.None) by reflexivity.
  split; [exact (conj H1 H2)|].
  exact (C7_None_event_has_no_payload new stale H1 H2).
Defined.

End EventQueue.

(** ** Running computations *)

Lemma run_bind {A B} (m : M A) (f : A → M B) (w w' : World) (a : A) :
  m w = (Ok a, w') → (m ≫= f) w = f a w'.
Proof. intros H. unfold mbind, M_bind. by rewrite H. Qed.

Lemma run_members (p : positive) (s : Alleg4Surface_t) (w : World) :
  surfaces w !! p = Some s → Alleg4Surface.members (Some p) w = (Ok s, w).
Proof.
  intros H. unfold Alleg4Surface.members, mbind, M_bind, gets; simpl.
  by rewrite H.
Qed.

(** ** Surfaces and their buffers *)

(** The state after [dispose] of the surface at [p]. *)
Lemma run_dispose (p : positive) (s : Alleg4Surface_t) (w : World) :
  surfaces w !! p = Some s →
  Alleg4Surface.dispose (Some p) w =
    (Ok (),
     set_surfaces (delete p (surfaces w))
       (if decide (m_destroy s = AutoDestroy)
        then set_allegro (destroy_bitmap (m_bmp s) (allegro w)) w
        else w)).
Proof.
  intros H. unfold Alleg4Surface.dispose, Alleg4Surface.delete.
  rewrite (run_bind _ _ _ _ _ (run_members p s w H)).
  destruct (decide (m_destroy s = AutoDestroy)); reflexivity.
Qed.

Lemma deref_destroy_bitmap (bmp : ptr) (a : Allegro) :
  deref_bitmap bmp (destroy_bitmap bmp a) = None.
Proof.
  destruct bmp as [b|]; [|done]. simpl. apply lookup_delete_eq.
Qed.

(** C8: [dispose] always frees the surface object.  For a surface with
    [NoDestroy] (a borrowed buffer) it leaves Allegro as it was: no call
    is made and every bitmap, the buffer among them, stays allocated.
    For a surface with [AutoDestroy] (an owned buffer) it calls
    [destroy_bitmap] on the buffer, which is no longer allocated
    afterwards. *)
Theorem C8_dispose_ownership (p : positive) (s : Alleg4Surface_t) (w : World) :
  surfaces w !! p = Some s →
  ∃ w', Alleg4Surface.dispose (Some p) w = (Ok (), w') ∧
        surfaces w' = delete p (surfaces w) ∧
        match m_destroy s with
        | NoDestroy =>
            allegro w' = allegro w ∧
            deref_bitmap (m_bmp s) (allegro w') = deref_bitmap (m_bmp s) (allegro w)
        | AutoDestroy =>
            allegro w' = destroy_bitmap (m_bmp s) (allegro w) ∧
            calls (allegro w') = calls (allegro w) ++ [call_destroy_bitmap (m_bmp s)] ∧
            deref_bitmap (m_bmp s) (allegro w') = None
        end.
Proof.
  intros H. rewrite (run_dispose _ _ _ H).
  eexists; split; [reflexivity|]. split; [done|].
  destruct s as [bmp []]; simpl.
  - done.
  - repeat split.
    + by destruct bmp.
    + apply deref_destroy_bitmap.
Qed.

(** A surface that borrows the bitmap of surface 1 of [two_surfaces]
    is disposed of: the bitmap stays. *)
Lemma C8_dispose_ownership_witness :
  let w := state_after (Alleg4Surface.new (Some 1%positive) NoDestroy) two_surfaces in
  let s := {| m_bmp := Some 1%positive; m_destroy := NoDestroy |} in
  surfaces w !! 3%positive = Some s ∧
  ∃ w', Alleg4Surface.dispose (Some 3%positive) w = (Ok (), w') ∧
        surfaces w' = delete 3%positive (surfaces w) ∧
        match m_destroy s with
        | NoDestroy =>
            allegro w' = allegro w ∧
            deref_bitmap (m_bmp s) (allegro w') = deref_bitmap (m_bmp s) (allegro w)
        | AutoDestroy =>
            allegro w' = destroy_bitmap (m_bmp s) (allegro w) ∧
            calls (allegro w') = calls (allegro w) ++ [call_destroy_bitmap (m_bmp s)] ∧
            deref_bitmap (m_bmp s) (allegro w') = None
        end.
Proof.
  intros w s.
  assert (H : surfaces w !! 3%positive = Some s) by (vm_compute; reflexivity).
  split; [exact H|].
  exact (C8_dispose_ownership 3%positive s w H).
Defined.

(** Disposal of the two kinds of surface, evaluated: the borrowed bitmap
    1 stays allocated, the owned bitmap 2 does not. *)
Example dispose_two_surfaces :
  let w := state_after (Alleg4Surface.new (Some 1%positive) NoDestroy) two_surfaces in
  let borrowed_gone := state_after (Alleg4Surface.dispose (Some 3%positive)) w in
  let owned_gone := state_after (Alleg4Surface.dispose (Some 2%positive)) w in
  dom (bitmaps (allegro borrowed_gone)) = {[ 1%positive; 2%positive ]} ∧
  dom (bitmaps (allegro owned_gone)) = {[ 1%positive ]} ∧
  dom (surfaces borrowed_gone) = {[ 1%positive; 2%positive ]} ∧
  dom (surfaces owned_gone) = {[ 1%positive; 3%positive ]}.
Proof. vm_compute. repeat split. Qed.

Lemma fresh_unallocated {V} (m : gmap positive V) : m !! fresh (dom m) = None.
Proof. apply not_elem_of_dom, is_fresh. Qed.

Lemma run_new (bmp : ptr) (destroy : DestroyFlag) (w : World) :
  let p := fresh (dom (surfaces w)) in
  Alleg4Surface.new bmp destroy w =
    (Ok (Some p),
     set_surfaces (<[p := {| m_bmp := bmp; m_destroy := destroy |}]> (surfaces w)) w).
Proof. reflexivity. Qed.

(** C10: [createSurfaceFromNativeHandle] returns a new surface over the
    handle it is given, with the [AutoDestroy] tag whatever the handle
    is; [dispose] of that surface calls [destroy_bitmap] on the handle,
    so the caller's buffer is freed. *)
Theorem C10_native_handle_is_owned (nativeHandle : ptr) (w : World) :
  ∃ (p : positive) (w1 w2 : World),
    Alleg4System.createSurfaceFromNativeHandle nativeHandle w = (Ok (Some p), w1) ∧
    surfaces w !! p = None ∧
    surfaces w1 !! p = Some {| m_bmp := nativeHandle; m_destroy := AutoDestroy |} ∧
    allegro w1 = allegro w ∧
    Alleg4Surface.dispose (Some p) w1 = (Ok (), w2) ∧
    calls (allegro w2) = calls (allegro w) ++ [call_destroy_bitmap nativeHandle] ∧
    deref_bitmap nativeHandle (allegro w2) = None.
Proof.
  unfold Alleg4System.createSurfaceFromNativeHandle. rewrite run_new.
  set (p := fresh (dom (surfaces w))).
  set (s := {| m_bmp := nativeHandle; m_destroy := AutoDestroy |}).
  set (w1 := set_surfaces _ w).
  assert (Hp : surfaces w1 !! p = Some s) by apply lookup_insert_eq.
  exists p, w1. eexists. rewrite (run_dispose p s w1 Hp); simpl.
  repeat split.
  - apply fresh_unallocated.
  - done.
  - by destruct nativeHandle.
  - apply deref_destroy_bitmap.
Qed.

Lemma run_create_bitmap (width height : Z) (a : Allegro) :
  create_bitmap width height a =
    let a1 := log (call_create_bitmap width height) a in
    if drv_can_alloc (driver a) width height
    then let p := fresh (dom (bitmaps a)) in
         (Some p, set_bitmaps (<[p := blank_bitmap width height]> (bitmaps a)) a1)
    else (NULL, a1).
Proof. unfold create_bitmap; simpl. by destruct (drv_can_alloc _ _ _). Qed.

Lemma blank_bitmap_lines (width height : Z) :
  length (bmp_line (blank_bitmap width height)) = Z.to_nat height ∧
  Forall (λ row, length row = Z.to_nat width) (bmp_line (blank_bitmap width height)).
Proof.
  simpl. split; [apply length_replicate|].
  apply Forall_replicate, length_replicate.
Qed.

(** C4, as the design document states it, fails: on a machine without
    memory for the buffer, [createSurface] returns normally, with a
    surface whose buffer is the null pointer that [create_bitmap]
    gave. *)
Lemma C4_allocation_failure_absorbed :
  let w := boot no_memory in
  drv_can_alloc (driver (allegro w)) 320 240 = false ∧
  value_of (Alleg4System.createSurface 320 240) w = Ok (Some 1%positive) ∧
  surfaces (state_after (Alleg4System.createSurface 320 240) w) !! 1%positive
    = Some {| m_bmp := NULL; m_destroy := AutoDestroy |}.
Proof. repeat split. Qed.

(** C4, amended: [createSurface] always returns normally a new surface
    with the [AutoDestroy] tag.  When Allegro can allocate the buffer,
    the surface is over a bitmap that was not allocated before and that
    is [width] by [height], lines included.  When it cannot, no error is
    raised: the surface returned holds the null pointer, and no bitmap
    has been allocated. *)
Theorem C4_createSurface (width height : Z) (w : World) :
  ∃ (p : positive) (bmp : ptr) (w' : World),
    Alleg4System.createSurface width height w = (Ok (Some p), w') ∧
    surfaces w !! p = None ∧
    surfaces w' !! p = Some {| m_bmp := bmp; m_destroy := AutoDestroy |} ∧
    if drv_can_alloc (driver (allegro w)) width height then
      ∃ (b : positive) (B : BITMAP),
        bmp = Some b ∧ bitmaps (allegro w) !! b = None ∧
        bitmaps (allegro w') !! b = Some B ∧
        bmp_w B = width ∧ bmp_h B = height ∧
        length (bmp_line B) = Z.to_nat height ∧
        Forall (λ row, length row = Z.to_nat width) (bmp_line B)
    else bmp = NULL ∧ bitmaps (allegro w') = bitmaps (allegro w).
Proof.
  unfold Alleg4System.createSurface, Alleg4Surface.create.
  unfold mbind at 1, M_bind, call. rewrite run_create_bitmap; simpl.
  destruct (drv_can_alloc _ _ _) eqn:Hmem; rewrite run_new; simpl.
  - do 3 eexists. split; [reflexivity|]. simpl.
    split; [apply fresh_unallocated|]. split; [apply lookup_insert_eq|].
    exists (fresh (dom (bitmaps (allegro w)))), (blank_bitmap width height).
    split; [done|]. split; [apply fresh_unallocated|].
    split; [apply lookup_insert_eq|]. split; [done|]. split; [done|].
    apply blank_bitmap_lines.
  - do 3 eexists. split; [reflexivity|]. simpl.
    split; [apply fresh_unallocated|]. split; [apply lookup_insert_eq|]. done.
Qed.

(** ** blit *)

Lemma clip_axis_inside (s_n d_n s d n : Z) :
  0 ≤ s → 0 ≤ d → s + n ≤ s_n → d + n ≤ d_n →
  clip_axis s_n d_n s d n = (s, d, n).
Proof.
  intros Hs Hd Hsn Hdn. unfold clip_axis.
  rewrite (bool_decide_eq_false_2 (s < 0)) by lia.
  rewrite (bool_decide_eq_false_2 (s + n > s_n)) by lia.
  rewrite (bool_decide_eq_false_2 (d < 0)) by lia.
  rewrite (bool_decide_eq_false_2 (d + n > d_n)) by lia.
  reflexivity.
Qed.

(** Inside both bitmaps nothing is clipped; an empty rectangle copies
    nothing. *)
Lemma blit_clip_inside (src dest : BITMAP) (s_x s_y d_x d_y w h : Z) :
  inside src s_x s_y w h → inside dest d_x d_y w h →
  blit_clip src dest s_x s_y d_x d_y w h =
    if bool_decide (0 < w ∧ 0 < h)
    then Some {| ba_s_x := s_x; ba_s_y := s_y; ba_d_x := d_x; ba_d_y := d_y;
                 ba_w := w; ba_h := h |}
    else None.
Proof.
  intros (Hsx & Hsy & Hw & Hh & Hsw & Hsh) (Hdx & Hdy & _ & _ & Hdw & Hdh).
  unfold blit_clip. destruct (decide (0 < w ∧ 0 < h)) as [Hpos|Hpos].
  - rewrite (bool_decide_eq_true_2 _ Hpos).
    rewrite bool_decide_eq_false_2 by lia.
    rewrite !clip_axis_inside by lia.
    rewrite bool_decide_eq_false_2 by lia. reflexivity.
  - rewrite (bool_decide_eq_false_2 _ Hpos).
    destruct (bool_decide (s_x >= bmp_w src ∨ _)); [done|].
    rewrite !clip_axis_inside by lia.
    rewrite bool_decide_eq_true_2 by lia. reflexivity.
Qed.

Lemma blit_line_lookup (s_x d_x n : nat) (srow drow : list Z) (x : nat) :
  (s_x + n ≤ length srow)%nat → (d_x + n ≤ length drow)%nat →
  blit_line s_x d_x n srow drow !! x =
    if bool_decide (d_x ≤ x < d_x + n)%nat
    then srow !! (s_x + (x - d_x))%nat
    else drow !! x.
Proof.
  intros Hs Hd. unfold blit_line.
  destruct (decide (x < d_x)%nat) as [Hlt|Hge].
  - rewrite bool_decide_eq_false_2 by lia.
    rewrite lookup_app_l by (rewrite length_take; lia).
    by rewrite lookup_take_lt.
  - rewrite lookup_app_r by (rewrite length_take; lia).
    rewrite length_take, Nat.min_l by lia.
    destruct (decide (x < d_x + n)%nat) as [Hin|Hout].
    + rewrite bool_decide_eq_true_2 by lia.
      rewrite lookup_app_l by (rewrite length_take, length_drop; lia).
      rewrite lookup_take_lt by lia. by rewrite lookup_drop.
    + rewrite bool_decide_eq_false_2 by lia.
      rewrite lookup_app_r by (rewrite length_take, length_drop; lia).
      rewrite length_take, length_drop, Nat.min_l by lia.
      rewrite lookup_drop. f_equal. lia.
Qed.

Lemma blit_lines_lookup (s_x s_y d_x d_y n m : nat) (src dest : list (list Z))
    (s_w d_w : nat) (x y : nat) :
  Forall (λ row, length row = s_w) src → Forall (λ row, length row = d_w) dest →
  (s_x + n ≤ s_w)%nat → (d_x + n ≤ d_w)%nat →
  (s_y + m ≤ length src)%nat → (d_y + m ≤ length dest)%nat →
  pixel_at (blit_lines s_x s_y d_x d_y n m src dest) x y =
    if bool_decide ((d_x ≤ x < d_x + n)%nat ∧ (d_y ≤ y < d_y + m)%nat)
    then pixel_at src (s_x + (x - d_x))%nat (s_y + (y - d_y))%nat
    else pixel_at dest x y.
Proof.
  intros Hsrc Hdest Hsx Hdx Hsy Hdy. unfold pixel_at, blit_lines.
  destruct (decide (y < d_y)%nat) as [Hlt|Hge].
  - rewrite bool_decide_eq_false_2 by lia.
    rewrite lookup_app_l by (rewrite length_take; lia).
    by rewrite lookup_take_lt.
  - rewrite lookup_app_r by (rewrite length_take; lia).
    rewrite length_take, Nat.min_l by lia.
    assert (Hlen : length (zip_with (blit_line s_x d_x n)
                     (take m (drop s_y src)) (take m (drop d_y dest))) = m).
    { rewrite length_zip_with, !length_take, !length_drop. lia. }
    destruct (decide (y < d_y + m)%nat) as [Hin|Hout].
    + rewrite lookup_app_l by lia.
      rewrite lookup_zip_with.
      rewrite !lookup_take_lt, !lookup_drop by lia.
      destruct (lookup_lt_is_Some_2 src (s_y + (y - d_y))) as [srow Hsrow]; [lia|].
      destruct (lookup_lt_is_Some_2 dest (d_y + (y - d_y))) as [drow Hdrow]; [lia|].
      rewrite Hsrow, Hdrow; simpl.
      rewrite blit_line_lookup.
      * replace (d_y + (y - d_y))%nat with y in Hdrow by lia. rewrite Hdrow; simpl.
        destruct (decide (d_x ≤ x < d_x + n)%nat).
        -- by rewrite !bool_decide_eq_true_2 by lia.
        -- by rewrite !bool_decide_eq_false_2 by lia.
      * rewrite (Forall_lookup_1 _ _ _ _ Hsrc Hsrow). lia.
      * rewrite (Forall_lookup_1 _ _ _ _ Hdest Hdrow). lia.
    + rewrite bool_decide_eq_false_2 by lia.
      rewrite lookup_app_r by lia. rewrite Hlen, lookup_drop.
      by replace (d_y + m + (y - d_y - m))%nat with y by lia.
Qed.

Lemma blit_line_length (s_x d_x n : nat) (srow drow : list Z) :
  (s_x + n ≤ length srow)%nat → (d_x + n ≤ length drow)%nat →
  length (blit_line s_x d_x n srow drow) = length drow.
Proof.
  intros Hs Hd. unfold blit_line.
  rewrite !length_app, !length_take, !length_drop. lia.
Qed.

Lemma blit_lines_wf (s_x s_y d_x d_y n m : nat) (src dest : list (list Z))
    (s_w d_w : nat) :
  Forall (λ row, length row = s_w) src → Forall (λ row, length row = d_w) dest →
  (s_x + n ≤ s_w)%nat → (d_x + n ≤ d_w)%nat →
  (s_y + m ≤ length src)%nat → (d_y + m ≤ length dest)%nat →
  length (blit_lines s_x s_y d_x d_y n m src dest) = length dest ∧
  Forall (λ row, length row = d_w) (blit_lines s_x s_y d_x d_y n m src dest).
Proof.
  intros Hsrc Hdest Hsx Hdx Hsy Hdy. unfold blit_lines. split.
  - rewrite !length_app, length_zip_with, !length_take, !length_drop. lia.
  - apply Forall_app. split; [by apply Forall_take|].
    apply Forall_app. split; [|by apply Forall_drop].
    apply Forall_zip_with_fst with (P := λ row, length row = s_w)
                                   (Q := λ row, length row = d_w).
    + by apply Forall_take, Forall_drop.
    + apply Forall_take, Forall_drop.
      eapply Forall_impl; [exact Hdest|]. intros drow Hd srow Hs.
      simpl in *. rewrite blit_line_length; lia.
Qed.

(** [blit] of a rectangle inside both bitmaps: the destination keeps
    its size; its pixels in the rectangle are those of the rectangle of
    the source, the others are as they were. *)
Lemma blit_bitmap_pixels (S D : BITMAP) (s_x s_y d_x d_y w h : Z) :
  bitmap_wf S → bitmap_wf D →
  inside S s_x s_y w h → inside D d_x d_y w h →
  let D' := blit_bitmap S D s_x s_y d_x d_y w h in
  bitmap_wf D' ∧ bmp_w D' = bmp_w D ∧ bmp_h D' = bmp_h D ∧
  ∀ x y : Z,
    getpixel D' x y =
      if bool_decide (d_x ≤ x < d_x + w ∧ d_y ≤ y < d_y + h)
      then getpixel S (s_x + (x - d_x)) (s_y + (y - d_y))
      else getpixel D x y.
Proof.
  intros (HSw & HSh & HSlen & HSrows) (HDw & HDh & HDlen & HDrows) HinS HinD.
  unfold blit_bitmap. rewrite (blit_clip_inside S D) by done.
  destruct HinS as (Hsx & Hsy & Hw & Hh & Hsw & Hsh).
  destruct HinD as (Hdx & Hdy & _ & _ & Hdw & Hdh).
  case_bool_decide as Hpos; simpl.
  - destruct (blit_lines_wf (Z.to_nat s_x) (Z.to_nat s_y) (Z.to_nat d_x)
                (Z.to_nat d_y) (Z.to_nat w) (Z.to_nat h) (bmp_line S) (bmp_line D)
                (Z.to_nat (bmp_w S)) (Z.to_nat (bmp_w D)))
      as [Hlen Hrows]; [done|done|lia..|].
    split; [|split; [done|split; [done|]]].
    { split; [done|]. split; [done|]. simpl. split; [by rewrite Hlen|done]. }
    intros x y. unfold getpixel; simpl.
    case_bool_decide as Hxy.
    + rewrite (blit_lines_lookup _ _ _ _ _ _ _ _
                 (Z.to_nat (bmp_w S)) (Z.to_nat (bmp_w D))) by (done || lia).
      destruct (decide (d_x ≤ x < d_x + w ∧ d_y ≤ y < d_y + h)) as [Hin|Hout].
      * rewrite !bool_decide_eq_true_2 by lia.
        f_equal; lia.
      * by rewrite !bool_decide_eq_false_2 by lia.
    + by rewrite bool_decide_eq_false_2 by lia.
  - split; [done|]. split; [done|]. split; [done|]. intros x y.
    by rewrite bool_decide_eq_false_2 by lia.
Qed.

Lemma run_ASSERT_true (P : Prop) `{!Decision P} (w : World) :
  P → ASSERT (bool_decide P) w = (Ok (), w).
Proof. intros HP. by rewrite bool_decide_eq_true_2. Qed.

(** C9: for two allocated surfaces over allocated bitmaps and a
    rectangle that lies within both, [blitTo] returns normally; the
    bitmap of the destination keeps its size; each of its pixels inside
    the destination rectangle is the pixel at the same place of the
    source rectangle (as the source was before the call), each pixel
    outside is as it was; no other bitmap and no surface changes. *)
Theorem C9_blitTo_copies_rectangle (this dest : ptr) (bs bd : positive)
    (S D : BITMAP) (srcx srcy dstx dsty width height : Z) (w : World) :
  surface_over w this bs S → surface_over w dest bd D →
  inside S srcx srcy width height → inside D dstx dsty width height →
  ∃ (w' : World) (D' : BITMAP),
    Alleg4Surface.blitTo this dest srcx srcy dstx dsty width height w = (Ok (), w') ∧
    bitmaps (allegro w') !! bd = Some D' ∧
    bitmap_wf D' ∧ bmp_w D' = bmp_w D ∧ bmp_h D' = bmp_h D ∧
    (∀ x y : Z,
       getpixel D' x y =
         if bool_decide (dstx ≤ x < dstx + width ∧ dsty ≤ y < dsty + height)
         then getpixel S (srcx + (x - dstx)) (srcy + (y - dsty))
         else getpixel D x y) ∧
    (∀ b : positive, b ≠ bd → bitmaps (allegro w') !! b = bitmaps (allegro w) !! b) ∧
    surfaces w' = surfaces w.
Proof.
  intros (ps & ss & -> & Hss & Hsb & HS & HSwf) (pd & sd & -> & Hsd & Hdb & HD & HDwf)
    HinS HinD.
  destruct (blit_bitmap_pixels S D srcx srcy dstx dsty width height
              HSwf HDwf HinS HinD) as (Hwf' & Hw' & Hh' & Hpix).
  unfold Alleg4Surface.blitTo.
  erewrite run_bind by (apply run_members; exact Hss).
  erewrite run_bind by (apply run_ASSERT_true; by rewrite Hsb).
  erewrite run_bind by (by apply run_ASSERT_true).
  erewrite run_bind by (apply run_members; exact Hsd).
  erewrite run_bind by (apply run_ASSERT_true; by rewrite Hdb).
  unfold call_defined, blit, deref_bitmap. rewrite Hsb, Hdb; simpl.
  rewrite HS, HD; simpl.
  do 2 eexists. split; [reflexivity|]. simpl.
  split; [apply lookup_insert_eq|]. split; [done|]. split; [done|].
  split; [done|]. split; [done|]. split; [|done].
  intros b Hb. by rewrite lookup_insert_ne.
Qed.

Lemma six_pixels_wf : bitmap_wf six_pixels.
Proof. split; [done|]. split; [done|]. split; [done|]. by repeat constructor. Defined.

Lemma blank_bitmap_wf (width height : Z) :
  0 ≤ width → 0 ≤ height → bitmap_wf (blank_bitmap width height).
Proof.
  intros Hw Hh. split; [done|]. split; [done|]. apply blank_bitmap_lines.
Defined.

Lemma C9_blitTo_copies_rectangle_witness :
  let w := two_surfaces in
  let S := six_pixels in
  let D := blank_bitmap 4 3 in
  (surface_over w (Some 1%positive) 1%positive S ∧
   surface_over w (Some 2%positive) 2%positive D ∧
   inside S 1 0 2 2 ∧ inside D 2 1 2 2) ∧
  ∃ (w' : World) (D' : BITMAP),
    Alleg4Surface.blitTo (Some 1%positive) (Some 2%positive) 1 0 2 1 2 2 w = (Ok (), w') ∧
    bitmaps (allegro w') !! 2%positive = Some D' ∧
    bitmap_wf D' ∧ bmp_w D' = bmp_w D ∧ bmp_h D' = bmp_h D ∧
    (∀ x y : Z,
       getpixel D' x y =
         if bool_decide (2 ≤ x < 2 + 2 ∧ 1 ≤ y < 1 + 2)
         then getpixel S (1 + (x - 2)) (0 + (y - 1))
         else getpixel D x y) ∧
    (∀ b : positive, b ≠ 2%positive →
                     bitmaps (allegro w') !! b = bitmaps (allegro w) !! b) ∧
    surfaces w' = surfaces w.
Proof.
  intros w S D.
  assert (HS : surface_over w (Some 1%positive) 1%positive S).
  { eexists 1%positive, _. split; [reflexivity|]. split; [reflexivity|].
    split; [reflexivity|]. split; [reflexivity|]. exact six_pixels_wf. }
  assert (HD : surface_over w (Some 2%positive) 2%positive D).
  { eexists 2%positive, _. split; [reflexivity|]. split; [reflexivity|].
    split; [reflexivity|]. split; [reflexivity|]. apply blank_bitmap_wf; lia. }
  assert (HinS : inside S 1 0 2 2) by (unfold inside; simpl; lia).
  assert (HinD : inside D 2 1 2 2) by (unfold inside; simpl; lia).
  split; [exact (conj HS (conj HD (conj HinS HinD)))|].
  exact (C9_blitTo_copies_rectangle _ _ _ _ S D 1 0 2 1 2 2 w HS HD HinS HinD).
Defined.

(** The same copy, evaluated. *)
Example blitTo_two_surfaces :
  bmp_line <$> bitmaps (allegro (state_after
      (Alleg4Surface.blitTo (Some 1%positive) (Some 2%positive) 1 0 2 1 2 2)
      two_surfaces)) !! 2%positive
  = Some [[0; 0; 0; 0]; [0; 0; 12; 13]; [0; 0; 22; 23]].
Proof. vm_compute. reflexivity. Qed.

(** ** Creation of the display *)

(** C5: when the machine refuses the mouse, the keyboard or the graphics
    mode at the requested size, the constructor of [Alleg4Display]
    throws [DisplayCreationException] with the text Allegro left in
    [allegro_error] for the refused call.  The refused call is the last
    call made to Allegro and was made once: nothing is retried, nothing
    is allocated. *)
Theorem C5_display_creation_fails (width height scale : Z) (w : World)
    (msg : string) (cs : list Call) :
  refusal (allegro w) width height = Some (msg, cs) →
  ∃ w', Alleg4System.createDisplay width height scale w
          = (Throw {| what := msg |}, w') ∧
        allegro_error (allegro w') = msg ∧
        calls (allegro w') = calls (allegro w) ++ cs ∧
        bitmaps (allegro w') = bitmaps (allegro w) ∧
        surfaces w' = surfaces w.
Proof.
  unfold refusal, Alleg4System.createDisplay, Alleg4Display.new.
  unfold mbind, M_bind, call, call_, modify, gets, throw, set_gfx_mode,
    install_mouse, install_keyboard, answer; simpl.
  case_bool_decide as Hm; simpl.
  { intros [= <- <-]. eexists; split; [reflexivity|]. by simpl. }
  case_bool_decide as Hk; simpl.
  { intros [= <- <-]. eexists; split; [reflexivity|]. simpl.
    by rewrite <- app_assoc. }
  case_bool_decide as Hg; simpl; [|done].
  rewrite !(bool_decide_eq_true_2 _ Hg); simpl.
  intros [= <- <-]. eexists; split; [reflexivity|]. simpl.
  by rewrite <- !app_assoc.
Qed.

Lemma C5_display_creation_fails_witness :
  refusal (allegro (boot no_mouse)) 640 480
    = Some ("No mouse driver", [call_install_mouse]) ∧
  ∃ w', Alleg4System.createDisplay 640 480 2 (boot no_mouse)
          = (Throw {| what := "No mouse driver" |}, w') ∧
        allegro_error (allegro w') = "No mouse driver" ∧
        calls (allegro w') = calls (allegro (boot no_mouse)) ++ [call_install_mouse] ∧
        bitmaps (allegro w') = bitmaps (allegro (boot no_mouse)) ∧
        surfaces w' = surfaces (boot no_mouse).
Proof.
  split; [reflexivity|].
  apply (C5_display_creation_fails 640 480 2 (boot no_mouse)). reflexivity.
Defined.

(** ** What a computation leaves alone *)

Section Keeps.

Context (R : World → World → Prop) `{!PreOrder R}.
Hypothesis R_allegro : ∀ a w, R w (set_allegro a w).
Hypothesis R_surfaces : ∀ m w, R w (set_surfaces m w).

Lemma keeps_ret {A} (a : A) : keeps R (mret a).
Proof. intros w. reflexivity. Qed.

Lemma keeps_bind {A B} (m : M A) (f : A → M B) :
  keeps R m → (∀ a, keeps R (f a)) → keeps R (m ≫= f).
Proof.
  intros Hm Hf w. unfold mbind, M_bind. specialize (Hm w).
  destruct (m w) as [[a|e|] w']; simpl in *; [|done..].
  etrans; [exact Hm|apply Hf].
Qed.

Lemma keeps_fault {A} : keeps R (@fault A).
Proof. intros w. reflexivity. Qed.

Lemma keeps_throw {A} e : keeps R (@throw A e).
Proof. intros w. reflexivity. Qed.

Lemma keeps_gets {A} (f : World → A) : keeps R (gets f).
Proof. intros w. reflexivity. Qed.

Lemma keeps_ASSERT b : keeps R (ASSERT b).
Proof. destruct b; [apply keeps_ret|apply keeps_fault]. Qed.

Lemma keeps_deref {A} (o : option A) : keeps R (deref o).
Proof. destruct o; [apply keeps_ret|apply keeps_fault]. Qed.

Lemma keeps_if {A} (b : bool) (m1 m2 : M A) :
  keeps R m1 → keeps R m2 → keeps R (if b then m1 else m2).
Proof. by destruct b. Qed.

Lemma keeps_call {A} (f : Allegro → A * Allegro) : keeps R (call f).
Proof. intros w. unfold call. destruct (f _); apply R_allegro. Qed.

Lemma keeps_call_ (f : Allegro → Allegro) : keeps R (call_ f).
Proof. intros w. apply R_allegro. Qed.

Lemma keeps_call_defined (f : Allegro → option Allegro) : keeps R (call_defined f).
Proof.
  intros w. unfold call_defined. destruct (f _); [apply R_allegro|reflexivity].
Qed.

Lemma keeps_members this : keeps R (Alleg4Surface.members this).
Proof.
  apply keeps_bind; [apply keeps_deref|]. intros p.
  apply keeps_bind; [apply keeps_gets|]. intros s. apply keeps_deref.
Qed.

Lemma keeps_bitmap bmp : keeps R (Alleg4Surface.bitmap bmp).
Proof. apply keeps_bind; [apply keeps_gets|]. intros b. apply keeps_deref. Qed.

Lemma keeps_create width height : keeps R (Alleg4Surface.create width height).
Proof.
  apply keeps_bind; [apply keeps_call|]. intros bmp w. apply R_surfaces.
Qed.

Lemma keeps_dispose this : keeps R (Alleg4Surface.dispose this).
Proof.
  apply keeps_bind; [apply keeps_members|]. intros s.
  apply keeps_bind.
  { destruct (decide _); [apply keeps_call_|apply keeps_ret]. }
  intros _. apply keeps_bind; [apply keeps_deref|]. intros p w. apply R_surfaces.
Qed.

Lemma keeps_nativeHandle this : keeps R (Alleg4Surface.nativeHandle this).
Proof. apply keeps_bind; [apply keeps_members|]. intros s. apply keeps_ret. Qed.

Lemma keeps_setScale scale this : keeps R (Alleg4Display.setScale scale this).
Proof.
  apply keeps_bind; [apply keeps_ASSERT|]. intros _.
  apply keeps_if; [apply keeps_ret|].
  apply keeps_bind; [apply keeps_gets|]. intros sw.
  apply keeps_bind; [apply keeps_gets|]. intros sh.
  apply keeps_bind; [apply keeps_create|]. intros newSurface.
  apply keeps_bind; [|intros _; apply keeps_ret].
  apply keeps_if; [apply keeps_dispose|apply keeps_ret].
Qed.

(** [flip] writes [display_flags]: it keeps the relations that this
    write keeps. *)
Lemma keeps_flip this :
  (∀ f w, R w (set_display_flags f w)) → keeps R (Alleg4Display.flip this).
Proof.
  intros R_flags.
  apply keeps_bind; [apply keeps_gets|]. intros flags.
  apply keeps_if.
  - apply keeps_bind; [apply keeps_gets|]. intros flags'.
    apply keeps_bind; [intros w; apply R_flags|]. intros _.
    apply keeps_bind; [apply keeps_call_|]. intros _.
    apply keeps_bind; [apply keeps_setScale|]. intros this'. apply keeps_ret.
  - apply keeps_bind; [apply keeps_nativeHandle|]. intros bmp.
    apply keeps_bind; [apply keeps_gets|]. intros scr.
    apply keeps_bind; [apply keeps_gets|]. intros sw.
    apply keeps_bind; [apply keeps_gets|]. intros sh.
    apply keeps_bind; [|intros _; apply keeps_ret].
    apply keeps_if; [apply keeps_call_defined|].
    apply keeps_bind; [apply keeps_bitmap|]. intros b. apply keeps_call_defined.
Qed.

End Keeps.

Global Instance same_original_preorder : PreOrder same_original.
Proof.
  split.
  - by intros w.
  - intros w1 w2 w3 [H1 H2] [H3 H4]. split; congruence.
Qed.

Global Instance same_statics_preorder : PreOrder same_statics.
Proof.
  split.
  - by intros w.
  - intros w1 w2 w3 [H1 H2] [H3 H4]. split; [congruence|by etrans].
Qed.

(** ** The recorded sizes *)

Lemma same_original_allegro a w : same_original w (set_allegro a w).
Proof. done. Qed.
Lemma same_original_surfaces m w : same_original w (set_surfaces m w).
Proof. done. Qed.
Lemma same_original_flags f w : same_original w (set_display_flags f w).
Proof. done. Qed.

Lemma perform_original act this w :
  let w' := (perform act this w).2 in
  (original_width w', original_height w')
  = recorded_after act (original_width w, original_height w).
Proof.
  destruct act as [ev| | |scale]; simpl.
  - unfold resize_callback. by destruct (is_maximized ev).
  - done.
  - assert (H : keeps same_original (r ← Alleg4Display.flip this; mret r.2)).
    { apply keeps_bind; [apply _| |intros; apply keeps_ret; apply _].
      apply keeps_flip;
        auto using same_original_allegro, same_original_surfaces,
          same_original_flags with typeclass_instances. }
    destruct (H w) as [-> ->]. done.
  - destruct (keeps_setScale same_original same_original_allegro
                same_original_surfaces scale this w) as [-> ->]. done.
Qed.

Lemma last_maximize_cons act acts :
  last_maximize (act :: acts) =
    match last_maximize acts with
    | Some r => Some r
    | None => match act with
              | act_geometry_change ev =>
                  if is_maximized ev then Some (recorded ev) else None
              | _ => None
              end
    end.
Proof.
  unfold last_maximize, geometry_changes.
  destruct act as [ev| | |scale]; simpl;
    try by destruct (last _).
  rewrite filter_cons. destruct (is_maximized ev) eqn:Hmax.
  - rewrite decide_True by done. rewrite last_cons. by destruct (last _).
  - rewrite decide_False by done. by destruct (last _).
Qed.

(** What a run leaves in [original_width] and [original_height]. *)
Lemma perform_all_original acts this w this' w' :
  perform_all acts this w = (Ok this', w') →
  (original_width w', original_height w')
  = default (original_width w, original_height w) (last_maximize acts).
Proof.
  revert this w. induction acts as [|act acts IH]; intros this w Hrun.
  - by injection Hrun as <- <-.
  - simpl in Hrun. unfold mbind, M_bind in Hrun.
    pose proof (perform_original act this w) as Hact. simpl in Hact.
    destruct (perform act this w) as [[this1|e|] w1]; [|done..].
    rewrite (IH _ _ Hrun), last_maximize_cons. simpl in Hact.
    destruct (last_maximize acts) as [r|]; [done|]. simpl. rewrite Hact.
    destruct act as [ev| | |scale]; simpl; try done.
    by destruct (is_maximized ev).
Qed.

(** C6, as the design document states it, fails: after a maximize, the
    restore and a later resize by hand, no maximize is outstanding and
    the window is 80 by 60, yet [originalWidth] and [originalHeight]
    still return the 64 by 48 recorded at the maximize. *)
Lemma C6_recorded_size_outlives_restore :
  let w := state_after (perform_all maximize_restore_resize small_display)
             small_display_world in
  value_of (Alleg4System.createDisplay 64 48 1) (boot desktop) = Ok small_display ∧
  value_of (perform_all maximize_restore_resize small_display) small_display_world
    = Ok (Alleg4Display.mk (Some 4%positive) 1 Alleg4EventQueue.new) ∧
  outstanding_maximize maximize_restore_resize = None ∧
  value_of Alleg4Display.width w = Ok 80 ∧
  value_of Alleg4Display.height w = Ok 60 ∧
  value_of Alleg4Display.originalWidth w = Ok 64 ∧
  value_of Alleg4Display.originalHeight w = Ok 48.
Proof. vm_compute. repeat split. Qed.

(** C6, amended: in a program that starts with nothing recorded,
    [originalWidth] and [originalHeight] return the old size carried by
    the last notification that was a maximize, when it is positive,
    whatever has happened since (a restore, other resizes, flips): the
    record is never cleared.  They return the current physical size
    when no maximize has been notified (or the size recorded is not
    positive). *)
Theorem C6_original_size (acts : list Action) (this this' : Alleg4Display.t)
    (w w' : World) :
  original_width w = 0 → original_height w = 0 →
  perform_all acts this w = (Ok this', w') →
  Alleg4Display.originalWidth w' =
    (Ok (match last_maximize acts with
         | Some (ow, _) => if bool_decide (ow > 0) then ow else SCREEN_W (allegro w')
         | None => SCREEN_W (allegro w')
         end), w') ∧
  Alleg4Display.originalHeight w' =
    (Ok (match last_maximize acts with
         | Some (_, oh) => if bool_decide (oh > 0) then oh else SCREEN_H (allegro w')
         | None => SCREEN_H (allegro w')
         end), w').
Proof.
  intros Hw Hh Hrun. pose proof (perform_all_original _ _ _ _ _ Hrun) as Hrec.
  rewrite Hw, Hh in Hrec.
  unfold Alleg4Display.originalWidth, Alleg4Display.originalHeight,
    Alleg4Display.width, Alleg4Display.height, mbind, M_bind, gets; simpl.
  destruct (last_maximize acts) as [[ow oh]|]; simpl in Hrec;
    injection Hrec as -> ->.
  - split; case_bool_decide; reflexivity.
  - split; reflexivity.
Qed.


Lemma C6_original_size_witness :
  let w := small_display_world in
  let w' := state_after (perform_all maximize_restore_resize small_display) w in
  (original_width w = 0 ∧ original_height w = 0 ∧
   perform_all maximize_restore_resize small_display w
     = (Ok (Alleg4Display.mk (Some 4%positive) 1 Alleg4EventQueue.new), w')) ∧
  Alleg4Display.originalWidth w' = (Ok 64, w') ∧
  Alleg4Display.originalHeight w' = (Ok 48, w').
Proof.
  intros w w'.
  assert (Hw : original_width w = 0) by (vm_compute; reflexivity).
  assert (Hh : original_height w = 0) by (vm_compute; reflexivity).
  assert (Hrun : perform_all maximize_restore_resize small_display w
                 = (Ok (Alleg4Display.mk (Some 4%positive) 1 Alleg4EventQueue.new), w'))
    by (vm_compute; reflexivity).
  split; [exact (conj Hw (conj Hh Hrun))|].
  exact (C6_original_size maximize_restore_resize small_display _ w w' Hw Hh Hrun).
Defined.

(** ** setScale *)

Lemma run_create_ok (width height : Z) (w : World) :
  drv_can_alloc (driver (allegro w)) width height = true →
  Alleg4Surface.create width height w =
    (Ok (Some (fresh (dom (surfaces w)))),
     set_surfaces
       (<[fresh (dom (surfaces w)) :=
            {| m_bmp := Some (fresh (dom (bitmaps (allegro w))));
               m_destroy := AutoDestroy |}]> (surfaces w))
       (set_allegro
          (set_bitmaps
             (<[fresh (dom (bitmaps (allegro w))) := blank_bitmap width height]>
                (bitmaps (allegro w)))
             (log (call_create_bitmap width height) (allegro w))) w)).
Proof.
  intros Hmem. unfold Alleg4Surface.create, mbind, M_bind, call.
  rewrite run_create_bitmap, Hmem. reflexivity.
Qed.

Lemma run_setScale_same (scale : Z) (this : Alleg4Display.t) (w : World) :
  1 ≤ scale → Alleg4Display.m_scale this = scale →
  Alleg4Display.setScale scale this w = (Ok this, w).
Proof.
  intros Hs Heq. unfold Alleg4Display.setScale.
  rewrite (bool_decide_eq_true_2 (scale >= 1)) by lia.
  rewrite (bool_decide_eq_true_2 _ Heq). reflexivity.
Qed.

(** The first [setScale] of a display, from the constructor: there is
    no backbuffer yet. *)
Lemma run_setScale_first (scale : Z) (q : Alleg4EventQueue.t) (w : World) :
  1 ≤ scale →
  drv_can_alloc (driver (allegro w))
    (SCREEN_W (allegro w) `quot` scale) (SCREEN_H (allegro w) `quot` scale) = true →
  Alleg4Display.setScale scale (Alleg4Display.mk NULL 0 q) w =
    let '(p', _, w') := rescaled scale None w in
    (Ok (Alleg4Display.mk (Some p') scale q), w').
Proof.
  intros Hs Hmem. unfold Alleg4Display.setScale; simpl.
  rewrite (bool_decide_eq_true_2 (scale >= 1)) by lia.
  rewrite (bool_decide_eq_false_2 (0 = scale)) by lia.
  unfold ASSERT.
  erewrite run_bind by reflexivity.
  erewrite run_bind by reflexivity.
  erewrite run_bind by reflexivity.
  erewrite run_bind by (apply run_create_ok; exact Hmem).
  reflexivity.
Qed.

(** [setScale] to another scale, or after [flip] has zeroed the scale:
    the backbuffer [p] over the bitmap [b] is replaced. *)
Lemma run_setScale_change (scale : Z) (this : Alleg4Display.t) (w : World)
    (p b : positive) :
  1 ≤ scale → Alleg4Display.m_scale this ≠ scale →
  Alleg4Display.m_surface this = Some p →
  surfaces w !! p = Some {| m_bmp := Some b; m_destroy := AutoDestroy |} →
  drv_can_alloc (driver (allegro w))
    (SCREEN_W (allegro w) `quot` scale) (SCREEN_H (allegro w) `quot` scale) = true →
  Alleg4Display.setScale scale this w =
    let '(p', _, w') := rescaled scale (Some (p, b)) w in
    (Ok (Alleg4Display.mk (Some p') scale (Alleg4Display.m_queue this)), w').
Proof.
  intros Hs Hne Hp Hsurf Hmem. unfold Alleg4Display.setScale; simpl.
  rewrite (bool_decide_eq_true_2 (scale >= 1)) by lia.
  rewrite (bool_decide_eq_false_2 _ Hne), Hp.
  unfold ASSERT.
  erewrite run_bind by reflexivity.
  erewrite run_bind by reflexivity.
  erewrite run_bind by reflexivity.
  erewrite run_bind by (apply run_create_ok; exact Hmem).
  rewrite bool_decide_eq_true_2 by done.
  erewrite run_bind.
  2:{ apply run_dispose. simpl. rewrite lookup_insert_ne; [exact Hsurf|].
      intros Heq. pose proof (fresh_unallocated (surfaces w)) as Hf.
      rewrite Heq in Hf. congruence. }
  reflexivity.
Qed.

Lemma fresh_ne {V} (m : gmap positive V) (k : positive) (v : V) :
  m !! k = Some v → fresh (dom m) ≠ k.
Proof.
  intros Hk Heq. pose proof (fresh_unallocated m) as Hf.
  rewrite Heq in Hf. congruence.
Qed.

Lemma run_backbuffer_size this w p b B :
  Alleg4Display.m_surface this = Some p →
  surfaces w !! p = Some {| m_bmp := Some b; m_destroy := AutoDestroy |} →
  bitmaps (allegro w) !! b = Some B →
  backbuffer_size this w = (Ok (bmp_w B, bmp_h B), w).
Proof.
  intros Hp Hs Hb.
  unfold backbuffer_size, Alleg4Display.getSurface, Alleg4Surface.width,
    Alleg4Surface.height. rewrite Hp.
  assert (Hbm : Alleg4Surface.bitmap (Some b) w = (Ok B, w)).
  { unfold Alleg4Surface.bitmap, mbind, M_bind, gets; simpl. by rewrite Hb. }
  rewrite (run_bind _ _ w w (bmp_w B)).
  2:{ erewrite run_bind by (apply run_members; exact Hs). simpl.
      by erewrite run_bind by exact Hbm. }
  rewrite (run_bind _ _ w w (bmp_h B)); [done|].
  erewrite run_bind by (apply run_members; exact Hs). simpl.
  by erewrite run_bind by exact Hbm.
Qed.

(** What [setScale] does when it replaces the backbuffer. *)
Lemma setScale_replaces (scale : Z) (this : Alleg4Display.t) (w : World)
    (p b : positive) (B : BITMAP) :
  1 ≤ scale → Alleg4Display.m_scale this ≠ scale →
  backbuffer_at this w p b B →
  drv_can_alloc (driver (allegro w))
    (SCREEN_W (allegro w) `quot` scale) (SCREEN_H (allegro w) `quot` scale) = true →
  ∃ (p' b' : positive) (w' : World),
    let this' := Alleg4Display.mk (Some p') scale (Alleg4Display.m_queue this) in
    Alleg4Display.setScale scale this w = (Ok this', w') ∧
    backbuffer_at this' w' p' b'
      (blank_bitmap (SCREEN_W (allegro w) `quot` scale)
                    (SCREEN_H (allegro w) `quot` scale)) ∧
    surfaces w !! p' = None ∧ bitmaps (allegro w) !! b' = None ∧
    surfaces w' !! p = None ∧ bitmaps (allegro w') !! b = None ∧
    SCREEN_W (allegro w') = SCREEN_W (allegro w) ∧
    SCREEN_H (allegro w') = SCREEN_H (allegro w) ∧
    same_statics w w' ∧
    driver (allegro w') = driver (allegro w) ∧
    calls (allegro w') = calls (allegro w) ++
      [call_create_bitmap (SCREEN_W (allegro w) `quot` scale)
                          (SCREEN_H (allegro w) `quot` scale);
       call_destroy_bitmap (Some b)].
Proof.
  intros Hs Hne (Hp & Hsurf & Hb & ps & S & Hscr & Hps & Hpsb) Hmem.
  rewrite (run_setScale_change scale this w p b Hs Hne Hp Hsurf Hmem).
  unfold rescaled.
  set (b' := fresh (dom (bitmaps (allegro w)))).
  set (p' := fresh (dom (surfaces w))).
  assert (Hb' : b' ≠ b) by (eapply fresh_ne; exact Hb).
  assert (Hp' : p' ≠ p) by (eapply fresh_ne; exact Hsurf).
  assert (Hps' : b' ≠ ps) by (eapply fresh_ne; exact Hps).
  exists p', b'. eexists. split; [reflexivity|].
  unfold backbuffer_at; simpl.
  split; [|repeat split].
  - split; [done|]. split.
    { rewrite lookup_delete_ne by done. apply lookup_insert_eq. }
    split.
    { rewrite lookup_delete_ne by done. apply lookup_insert_eq. }
    exists ps, S. split; [done|]. split; [|done].
    rewrite lookup_delete_ne by done. rewrite lookup_insert_ne by done. done.
  - apply fresh_unallocated.
  - apply fresh_unallocated.
  - apply lookup_delete_eq.
  - apply lookup_delete_eq.
  - by rewrite <- app_assoc.
Qed.


Lemma small_display_ok : display_ok small_display small_display_world.
Proof.
  split; [simpl; lia|].
  exists 1%positive, 2%positive, (blank_bitmap 64 48).
  split; [|split; vm_compute; reflexivity].
  split; [reflexivity|]. split; [vm_compute; reflexivity|].
  split; [vm_compute; reflexivity|].
  exists 1%positive, (blank_bitmap 64 48).
  split; [vm_compute; reflexivity|]. split; [vm_compute; reflexivity|]. done.
Defined.



(** ** The resize flag *)

Lemma testbit_2 (n : Z) : 0 ≤ n → Z.testbit 2 n = bool_decide (n = 1).
Proof.
  intros Hn. change 2 with (2 ^ 1). rewrite Z.pow2_bits_eqb by lia.
  case_bool_decide; [by apply Z.eqb_eq|apply Z.eqb_neq; congruence].
Qed.

Lemma land_2 (f : Z) : Z.land f 2 = if Z.testbit f 1 then 2 else 0.
Proof.
  apply Z.bits_inj'. intros n Hn. rewrite Z.land_spec, testbit_2 by done.
  case_bool_decide as H1.
  - subst n. destruct (Z.testbit f 1); simpl;
      rewrite ?testbit_2, ?Z.bits_0 by done; done.
  - rewrite andb_false_r. destruct (Z.testbit f 1); [|by rewrite Z.bits_0].
    rewrite testbit_2 by done. by rewrite bool_decide_eq_false_2.
Qed.

(** [display_flags |= DISPLAY_FLAG_WINDOW_RESIZE] raises the flag. *)
Lemma resize_flag_raised (f : Z) :
  Z.land (Z.lor f DISPLAY_FLAG_WINDOW_RESIZE) DISPLAY_FLAG_WINDOW_RESIZE ≠ 0.
Proof.
  unfold DISPLAY_FLAG_WINDOW_RESIZE. rewrite land_2, Z.lor_spec.
  change (Z.testbit 2 1) with true. by rewrite orb_true_r.
Qed.

(** [display_flags ^= DISPLAY_FLAG_WINDOW_RESIZE], when the flag is up,
    lowers it and leaves the other flags. *)
Lemma resize_flag_cleared (f : Z) :
  Z.land f DISPLAY_FLAG_WINDOW_RESIZE ≠ 0 →
  Z.land (Z.lxor f DISPLAY_FLAG_WINDOW_RESIZE) DISPLAY_FLAG_WINDOW_RESIZE = 0 ∧
  Z.land (Z.lxor f DISPLAY_FLAG_WINDOW_RESIZE) DISPLAY_FLAG_FULL_REFRESH
  = Z.land f DISPLAY_FLAG_FULL_REFRESH.
Proof.
  unfold DISPLAY_FLAG_WINDOW_RESIZE, DISPLAY_FLAG_FULL_REFRESH.
  rewrite !land_2. intros Hset. split.
  - rewrite Z.lxor_spec. destruct (Z.testbit f 1); [done|congruence].
  - apply Z.bits_inj'. intros n Hn. rewrite !Z.land_spec, Z.lxor_spec.
    destruct (decide (n = 0)) as [->|Hn0]; [by rewrite xorb_false_r|].
    replace (Z.testbit 1 n) with false; [by rewrite !andb_false_r|].
    symmetry. change 1 with (2 ^ 0). rewrite Z.pow2_bits_eqb by lia.
    apply Z.eqb_neq. congruence.
Qed.

(** ** flip *)

(** [acknowledge_resize] on a display with its backbuffer: the
    backbuffer stays, [screen] is made again, and the physical size is
    the size of the window. *)
Lemma acknowledge_resize_backbuffer this this' w w0 p b B :
  Alleg4Display.m_surface this' = Alleg4Display.m_surface this →
  surfaces w0 = surfaces w → allegro w0 = allegro w →
  backbuffer_at this w p b B →
  let w' := set_allegro (acknowledge_resize (allegro w0)) w0 in
  backbuffer_at this' w' p b B ∧
  SCREEN_W (allegro w') = window_w (allegro w) ∧
  SCREEN_H (allegro w') = window_h (allegro w) ∧
  driver (allegro w') = driver (allegro w) ∧
  calls (allegro w') = calls (allegro w) ++ [call_acknowledge_resize].
Proof.
  intros Hthis Hsurfs Hal (Hp & Hs & Hb & ps & S & Hscr & Hps & Hpsb).
  unfold acknowledge_resize; simpl. rewrite Hal, Hscr; simpl.
  set (m := delete ps (bitmaps (allegro w))).
  assert (Hmb : m !! b = Some B) by (unfold m; by rewrite lookup_delete_ne).
  repeat split; try done.
  - by rewrite Hthis.
  - simpl. by rewrite Hsurfs.
  - simpl. rewrite lookup_insert_ne; [done|]. by eapply fresh_ne.
  - exists (fresh (dom m)), (blank_bitmap (window_w (allegro w)) (window_h (allegro w))).
    simpl. split; [done|]. split; [apply lookup_insert_eq|]. by eapply fresh_ne.
Qed.

(** Without the resize flag, [flip] presents the backbuffer and returns
    [true]: one [blit] at scale 1, one [stretch_blit] otherwise.  Only
    the pixels of [screen] change. *)
Lemma flip_presents (this : Alleg4Display.t) (w : World) (p b : positive) (B : BITMAP) :
  Z.land (display_flags w) DISPLAY_FLAG_WINDOW_RESIZE = 0 →
  backbuffer_at this w p b B →
  ∃ (w' : World) (c : Call),
    Alleg4Display.flip this w = (Ok (true, this), w') ∧
    backbuffer_at this w' p b B ∧
    SCREEN_W (allegro w') = SCREEN_W (allegro w) ∧
    SCREEN_H (allegro w') = SCREEN_H (allegro w) ∧
    driver (allegro w') = driver (allegro w) ∧
    calls (allegro w') = calls (allegro w) ++ [c] ∧
    c = (if bool_decide (Alleg4Display.m_scale this = 1)
         then call_blit (Some b) (screen (allegro w)) 0 0 0 0
                (SCREEN_W (allegro w)) (SCREEN_H (allegro w))
         else call_stretch_blit (Some b) (screen (allegro w)) 0 0 (bmp_w B) (bmp_h B)
                0 0 (SCREEN_W (allegro w)) (SCREEN_H (allegro w))).
Proof.
  intros Hflag (Hp & Hs & Hb & ps & S & Hscr & Hps & Hpsb).
  unfold Alleg4Display.flip.
  erewrite run_bind by reflexivity.
  rewrite bool_decide_eq_false_2 by (intros H; by apply H).
  rewrite Hp.
  erewrite (run_bind (Alleg4Surface.nativeHandle _)).
  2:{ unfold Alleg4Surface.nativeHandle.
      erewrite run_bind by (apply run_members; exact Hs). reflexivity. }
  erewrite run_bind by reflexivity.
  erewrite run_bind by reflexivity.
  erewrite run_bind by reflexivity. simpl.
  assert (Hback : ∀ (S' : BITMAP) (a : Call),
            backbuffer_at this
              (set_allegro (set_bitmaps (<[ps := S']> (bitmaps (allegro w))) 
                 (log a (allegro w))) w) p b B).
  { intros S' a. split; [done|]. split; [done|]. simpl.
    split; [by rewrite lookup_insert_ne|].
    exists ps, S'. split; [done|]. split; [apply lookup_insert_eq|done]. }
  case_bool_decide as Hone.
  - unfold mbind at 1, M_bind, call_defined, blit, deref_bitmap; simpl.
    rewrite Hb, Hscr; simpl. rewrite Hps; simpl.
    do 2 eexists. split; [reflexivity|]. split; [apply Hback|]. by simpl.
  - unfold mbind at 1, M_bind.
    unfold mbind at 1, M_bind, Alleg4Surface.bitmap.
    unfold mbind at 1, M_bind, gets, deref_bitmap; simpl. rewrite Hb; simpl.
    unfold call_defined, stretch_blit, deref_bitmap; simpl.
    rewrite Hb, Hscr; simpl. rewrite Hps; simpl.
    do 2 eexists. split; [reflexivity|]. split; [apply Hback|]. by simpl.
Qed.

(** A notification of a change of geometry raises the resize flag and
    gives the window its new size; the display is as it was. *)
Lemma geometry_change_display_ok (ev : RESIZE_DISPLAY_EVENT)
    (this : Alleg4Display.t) (w : World) :
  display_ok this w →
  display_ok this (geometry_change ev w) ∧
  Z.land (display_flags (geometry_change ev w)) DISPLAY_FLAG_WINDOW_RESIZE ≠ 0 ∧
  window_w (allegro (geometry_change ev w)) = new_w ev ∧
  window_h (allegro (geometry_change ev w)) = new_h ev.
Proof.
  intros Hok. unfold geometry_change, resize_callback.
  split; [|split; [apply resize_flag_raised|by destruct (is_maximized ev)]].
  by destruct (is_maximized ev).
Qed.

(** The recovery from a resize: what [flip] does when the resize flag is
    up. *)
Lemma flip_recovers (this : Alleg4Display.t) (w : World) (p b : positive)
    (B : BITMAP) :
  1 ≤ Alleg4Display.m_scale this →
  backbuffer_at this w p b B →
  Z.land (display_flags w) DISPLAY_FLAG_WINDOW_RESIZE ≠ 0 →
  drv_can_alloc (driver (allegro w))
    (window_w (allegro w) `quot` Alleg4Display.m_scale this)
    (window_h (allegro w) `quot` Alleg4Display.m_scale this) = true →
  ∃ (p' b' : positive) (w' : World),
    let this' := Alleg4Display.mk (Some p') (Alleg4Display.m_scale this)
                   (Alleg4Display.m_queue this) in
    Alleg4Display.flip this w = (Ok (false, this'), w') ∧
    backbuffer_at this' w' p' b'
      (blank_bitmap (window_w (allegro w) `quot` Alleg4Display.m_scale this)
                    (window_h (allegro w) `quot` Alleg4Display.m_scale this)) ∧
    SCREEN_W (allegro w') = window_w (allegro w) ∧
    SCREEN_H (allegro w') = window_h (allegro w) ∧
    driver (allegro w') = driver (allegro w) ∧
    display_flags w' = Z.lxor (display_flags w) DISPLAY_FLAG_WINDOW_RESIZE ∧
    p' ≠ p ∧ surfaces w' !! p = None ∧ bitmaps (allegro w') !! b = None ∧
    calls (allegro w') = calls (allegro w) ++
      [call_acknowledge_resize;
       call_create_bitmap (window_w (allegro w) `quot` Alleg4Display.m_scale this)
                          (window_h (allegro w) `quot` Alleg4Display.m_scale this);
       call_destroy_bitmap (Some b)].
Proof.
  intros Hscale Hbb Hflag Hmem.
  unfold Alleg4Display.flip.
  erewrite run_bind by reflexivity.
  rewrite bool_decide_eq_true_2 by done.
  erewrite run_bind by reflexivity.
  erewrite run_bind by reflexivity.
  erewrite run_bind by reflexivity.
  set (w0 := set_display_flags _ w).
  set (this0 := Alleg4Display.mk (Alleg4Display.m_surface this) 0
                  (Alleg4Display.m_queue this)).
  destruct (acknowledge_resize_backbuffer this this0 w w0 p b B
              eq_refl eq_refl eq_refl Hbb) as (Hbb2 & HW & HH & Hdrv & Hcalls).
  set (w2 := set_allegro (acknowledge_resize (allegro w0)) w0) in *.
  assert (Hf2 : display_flags w2
                = Z.lxor (display_flags w) DISPLAY_FLAG_WINDOW_RESIZE) by reflexivity.
  clearbody w2. clear w0.
  assert (Hne : Alleg4Display.m_scale this0 ≠ Alleg4Display.m_scale this)
    by (simpl; lia).
  rewrite <- Hdrv, <- HW, <- HH in Hmem.
  destruct (setScale_replaces _ this0 w2 p b B Hscale Hne Hbb2 Hmem)
    as (p' & b' & w' & Hrun & Hbb' & Hp' & _ & Hp & Hb & HW' & HH' & Hstat
        & Hdrv' & Hcalls').
  erewrite run_bind by exact Hrun. simpl in Hbb'.
  exists p', b', w'. simpl. split; [done|].
  split; [by rewrite <- HW, <- HH|].
  split; [by rewrite HW'|]. split; [by rewrite HH'|].
  split; [by rewrite Hdrv'|].
  split; [by destruct Hstat as [-> _]|].
  split.
  { intros ->. destruct Hbb2 as (_ & Hs2' & _). rewrite Hs2' in Hp'. done. }
  split; [done|]. split; [done|].
  rewrite Hcalls', Hcalls, HW, HH, <- app_assoc. done.
Qed.




(** ** A created display *)

Lemma refusal_None (a : Allegro) (width height : Z) :
  refusal a width height = None →
  ¬ (drv_install_mouse (driver a)).1 < 0 ∧
  ¬ (drv_install_keyboard (driver a)).1 < 0 ∧
  ¬ (drv_set_gfx_mode (driver a) width height).1 < 0.
Proof.
  unfold refusal. repeat case_bool_decide; done.
Qed.

(** When the machine refuses nothing and can allocate the backbuffer,
    the constructor returns a display in the state [display_ok], at the
    requested size and scale and with an empty queue. *)
Lemma createDisplay_ok (width height scale : Z) (w : World) :
  refusal (allegro w) width height = None →
  1 ≤ scale →
  drv_can_alloc (driver (allegro w)) (width `quot` scale) (height `quot` scale) = true →
  ∃ (this : Alleg4Display.t) (w' : World),
    Alleg4System.createDisplay width height scale w = (Ok this, w') ∧
    display_ok this w' ∧
    Alleg4Display.m_scale this = scale ∧
    Alleg4Display.getEventQueue this = Alleg4EventQueue.new ∧
    SCREEN_W (allegro w') = width ∧ SCREEN_H (allegro w') = height ∧
    backbuffer_size this w' = (Ok (width `quot` scale, height `quot` scale), w') ∧
    same_statics w w' ∧ driver (allegro w') = driver (allegro w).
Proof.
  intros Hrefusal Hscale Hmem.
  destruct (refusal_None _ _ _ Hrefusal) as (Hm & Hk & Hg).
  unfold Alleg4System.createDisplay, Alleg4Display.new.
  erewrite run_bind by reflexivity. simpl.
  rewrite !bool_decide_eq_false_2 by exact Hm.
  erewrite run_bind by reflexivity.
  erewrite run_bind by reflexivity. simpl.
  rewrite !bool_decide_eq_false_2 by exact Hk.
  erewrite run_bind by reflexivity.
  erewrite run_bind by reflexivity.
  erewrite run_bind by reflexivity.
  erewrite (run_bind (call (set_gfx_mode width height))).
  2:{ unfold call, set_gfx_mode; simpl.
      rewrite !bool_decide_eq_false_2 by exact Hg.
      reflexivity. }
  rewrite bool_decide_eq_false_2 by exact Hg.
  erewrite run_bind by reflexivity.
  erewrite run_bind by (apply run_setScale_first; [exact Hscale|exact Hmem]).
  unfold rescaled; simpl.
  erewrite run_bind by reflexivity.
  erewrite run_bind by reflexivity.
  set (ps := fresh (dom (bitmaps (allegro w)))).
  set (m1 := <[ps := blank_bitmap width height]> (bitmaps (allegro w))).
  do 2 eexists. split; [reflexivity|]. simpl.
  assert (Hps : m1 !! ps = Some (blank_bitmap width height)) by apply lookup_insert_eq.
  assert (Hne : fresh (dom m1) ≠ ps) by (by eapply fresh_ne).
  split; [|do 4 (split; [done|]); split; [|done]].
  - split; [done|].
    exists (fresh (dom (surfaces w))), (fresh (dom m1)),
      (blank_bitmap (width `quot` scale) (height `quot` scale)).
    split; [|done]. split; [done|]. simpl.
    split; [apply lookup_insert_eq|]. split; [apply lookup_insert_eq|].
    exists ps, (blank_bitmap width height). split; [done|].
    split; [by rewrite lookup_insert_ne|done].
  - rewrite (run_backbuffer_size _ _ (fresh (dom (surfaces w))) (fresh (dom m1))
               (blank_bitmap (width `quot` scale) (height `quot` scale)));
      [reflexivity|reflexivity|..]; simpl; apply lookup_insert_eq.
Qed.

(** The scenario of the design document: a display of 640 by 480 at
    scale 2 has a backbuffer of 320 by 240; a [DropFiles] event pushed
    with two paths is polled with the paths in the same order; the next
    poll gives [None]. *)
Example end_to_end :
  let created := Alleg4System.createDisplay 640 480 2 (boot desktop) in
  let size := match created.1 with
              | Ok this => value_of (backbuffer_size this) created.2
              | Throw e => Throw e
              | Fault => Fault
              end in
  let ev := Event.setFiles ["a.png"; "b.png"]
              (Event.setType Event.DropFiles Event.new) in
  let q1 := Alleg4EventQueue.queueEvent Alleg4EventQueue.new ev in
  let '(e1, q2) := Alleg4EventQueue.getEvent q1 Event.new in
  let '(e2, q3) := Alleg4EventQueue.getEvent q2 Event.new in
  size = Ok (320, 240) ∧
  Event.type e1 = Event.DropFiles ∧ Event.files e1 = ["a.png"; "b.png"] ∧
  Event.type e2 = Event.None ∧ q3 = Alleg4EventQueue.new.
Proof. vm_compute. repeat split. Qed.

(** ** The state of the display along a run *)

Lemma display_ok_backbuffer_size this w :
  display_ok this w →
  backbuffer_size this w =
    (Ok (SCREEN_W (allegro w) `quot` Alleg4Display.m_scale this,
         SCREEN_H (allegro w) `quot` Alleg4Display.m_scale this), w).
Proof.
  intros [_ (p & b & B & (Hp & Hs & Hb & _) & Hbw & Hbh)].
  by rewrite (run_backbuffer_size this w p b B Hp Hs Hb), Hbw, Hbh.
Qed.

Lemma setScale_display_ok (scale : Z) (this : Alleg4Display.t) (w : World) :
  1 ≤ scale → display_ok this w →
  drv_can_alloc (driver (allegro w))
    (SCREEN_W (allegro w) `quot` scale) (SCREEN_H (allegro w) `quot` scale) = true →
  ∃ (this' : Alleg4Display.t) (w' : World),
    Alleg4Display.setScale scale this w = (Ok this', w') ∧
    display_ok this' w' ∧ driver (allegro w') = driver (allegro w).
Proof.
  intros Hscale Hok Hmem.
  destruct (decide (Alleg4Display.m_scale this = scale)) as [Heq|Hne].
  - exists this, w. by rewrite (run_setScale_same scale this w Hscale Heq).
  - destruct Hok as [_ (p & b & B & Hbb & _)].
    destruct (setScale_replaces scale this w p b B Hscale Hne Hbb Hmem)
      as (p' & b' & w' & Hrun & Hbb' & _ & _ & _ & _ & HW & HH & _ & Hdrv & _).
    do 2 eexists. split; [exact Hrun|]. split; [|done].
    split; [done|]. eexists p', b', _. split; [exact Hbb'|].
    simpl. by rewrite HW, HH.
Qed.

Lemma flip_display_ok (this : Alleg4Display.t) (w : World) :
  display_ok this w →
  drv_can_alloc (driver (allegro w))
    (window_w (allegro w) `quot` Alleg4Display.m_scale this)
    (window_h (allegro w) `quot` Alleg4Display.m_scale this) = true →
  ∃ (presented : bool) (this' : Alleg4Display.t) (w' : World),
    Alleg4Display.flip this w = (Ok (presented, this'), w') ∧
    display_ok this' w' ∧ driver (allegro w') = driver (allegro w) ∧
    presented = bool_decide (Z.land (display_flags w) DISPLAY_FLAG_WINDOW_RESIZE = 0).
Proof.
  intros [Hscale (p & b & B & Hbb & Hbw & Hbh)] Hmem.
  destruct (decide (Z.land (display_flags w) DISPLAY_FLAG_WINDOW_RESIZE = 0))
    as [Hdown|Hup].
  - destruct (flip_presents this w p b B Hdown Hbb)
      as (w' & c & Hrun & Hbb' & HW & HH & Hdrv & _).
    exists true, this, w'. split; [done|]. split; [|split; [done|]].
    + split; [done|]. exists p, b, B. split; [done|]. by rewrite HW, HH.
    + by rewrite bool_decide_eq_true_2.
  - destruct (flip_recovers this w p b B Hscale Hbb Hup Hmem)
      as (p' & b' & w' & Hrun & Hbb' & HW & HH & Hdrv & _).
    do 3 eexists. split; [exact Hrun|]. split; [|split; [done|]].
    + split; [done|]. eexists p', b', _. split; [exact Hbb'|].
      simpl. by rewrite HW, HH.
    + by rewrite bool_decide_eq_false_2.
Qed.

Lemma perform_display_ok (act : Action) (this : Alleg4Display.t) (w : World) :
  always_allocates (driver (allegro w)) → valid_action act →
  display_ok this w →
  ∃ (this' : Alleg4Display.t) (w' : World),
    perform act this w = (Ok this', w') ∧
    display_ok this' w' ∧ driver (allegro w') = driver (allegro w).
Proof.
  intros Hmem Hvalid Hok. destruct act as [ev| | |scale]; simpl.
  - exists this, (geometry_change ev w). split; [done|].
    split; [by apply geometry_change_display_ok|].
    unfold geometry_change, resize_callback. by destruct (is_maximized ev).
  - by exists this, (display_switch_in_callback w).
  - destruct (flip_display_ok this w Hok (Hmem _ _))
      as (presented & this' & w' & Hrun & Hok' & Hdrv & _).
    exists this', w'. by erewrite run_bind by exact Hrun.
  - by apply setScale_display_ok.
Qed.

(** Along every run of a display on a machine that always allocates,
    every action returns normally and leaves the display in the state
    [display_ok]: the backbuffer always has the physical size divided
    by the scale. *)
Lemma perform_all_display_ok (acts : list Action) (this : Alleg4Display.t)
    (w : World) :
  always_allocates (driver (allegro w)) → Forall valid_action acts →
  display_ok this w →
  ∃ (this' : Alleg4Display.t) (w' : World),
    perform_all acts this w = (Ok this', w') ∧
    display_ok this' w' ∧ driver (allegro w') = driver (allegro w).
Proof.
  revert this w. induction acts as [|act acts IH]; intros this w Hmem Hvalid Hok.
  - by exists this, w.
  - apply Forall_cons in Hvalid as [Hact Hacts].
    destruct (perform_display_ok act this w Hmem Hact Hok)
      as (this1 & w1 & Hrun1 & Hok1 & Hdrv1).
    destruct (IH this1 w1) as (this' & w' & Hrun & Hok' & Hdrv);
      [by rewrite Hdrv1|done|done|].
    exists this', w'. simpl. erewrite run_bind by exact Hrun1.
    split; [done|]. split; [done|]. congruence.
Qed.

(** From the creation on: a display created at a scale of at least 1 on
    a machine that refuses nothing and always allocates goes through
    every run, and its backbuffer has the physical size divided by the
    scale at the end of it. *)
Lemma created_then_backbuffer (width height scale : Z) (acts : list Action)
    (w : World) :
  refusal (allegro w) width height = None →
  always_allocates (driver (allegro w)) →
  1 ≤ scale → Forall valid_action acts →
  ∃ (this : Alleg4Display.t) (w' : World),
    created_then width height scale acts w = (Ok this, w') ∧
    display_ok this w' ∧
    backbuffer_size this w' =
      (Ok (SCREEN_W (allegro w') `quot` Alleg4Display.m_scale this,
           SCREEN_H (allegro w') `quot` Alleg4Display.m_scale this), w').
Proof.
  intros Hrefusal Hmem Hscale Hvalid.
  destruct (createDisplay_ok width height scale w Hrefusal Hscale (Hmem _ _))
    as (this0 & w0 & Hrun0 & Hok0 & _ & _ & _ & _ & _ & _ & Hdrv0).
  destruct (perform_all_display_ok acts this0 w0) as (this & w' & Hrun & Hok & _);
    [by rewrite Hdrv0|done|done|].
  exists this, w'. unfold created_then. erewrite run_bind by exact Hrun0.
  split; [done|]. split; [done|]. by apply display_ok_backbuffer_size.
Qed.

(** * Further properties *)

(** ** The queue under any use *)

Section EventQueueUse.
Import Alleg4EventQueue.

Lemma Event_new_not_occurrence : ¬ occurrence Event.new.
Proof. intros H. by apply H. Qed.

(** X1: whatever the interleaving of pushes and polls, when the events
    waiting and the events pushed are occurrences (their kind is not
    [None]), the occurrences that the polls return, followed by the
    events left in the queue, are the events that were waiting followed
    by the events pushed, in the same order: no event is lost,
    duplicated or overtaken. *)
Theorem X1_queue_conserves_events (ops : list QueueOp) (q : t) :
  Forall occurrence (m_events q) → Forall occurrence (pushed ops) →
  filter occurrence (run_ops ops q).1 ++ m_events (run_ops ops q).2
  = m_events q ++ pushed ops.
Proof.
  revert q. induction ops as [|[e|] ops IH]; intros q Hq Hops; simpl.
  - by rewrite app_nil_r.
  - unfold pushed in Hops; simpl in Hops. apply Forall_cons in Hops as [He Hops].
    rewrite IH; [|simpl; apply Forall_app; by repeat constructor|done].
    simpl. by rewrite <- app_assoc.
  - destruct q as [[|head rest]]; unfold getEvent; simpl.
    + specialize (IH (mk []) Hq Hops).
      destruct (run_ops ops (mk [])) as [es q'] eqn:Hrun; simpl in *.
      rewrite filter_cons, decide_False by apply Event_new_not_occurrence.
      exact IH.
    + simpl in Hq. apply Forall_cons in Hq as [Hhead Hrest].
      specialize (IH (mk rest) Hrest Hops).
      destruct (run_ops ops (mk rest)) as [es q'] eqn:Hrun; simpl in *.
      rewrite filter_cons, decide_True by done. simpl. by rewrite IH.
Qed.


Lemma X1_queue_conserves_events_witness :
  let a := Event.mk Event.DropFiles ["a.png"] in
  let b := Event.mk Event.DropFiles ["b.png"; "c.png"] in
  let ops := [op_getEvent; op_queueEvent a; op_queueEvent b; op_getEvent;
              op_getEvent; op_getEvent; op_queueEvent a] in
  (Forall occurrence (m_events new) ∧ Forall occurrence (pushed ops)) ∧
  filter occurrence (run_ops ops new).1 ++ m_events (run_ops ops new).2
  = m_events new ++ pushed ops.
Proof.
  intros a b ops.
  assert (H0 : Forall occurrence (m_events new)) by constructor.
  assert (H1 : Forall occurrence (pushed ops)) by (repeat constructor; done).
  split; [exact (conj H0 H1)|].
  exact (X1_queue_conserves_events ops new H0 H1).
Defined.

Lemma getEvents_empty (k : nat) :
  getEvents k new = (replicate k Event.new, new).
Proof. induction k as [|k IH]; simpl; [done|]. by rewrite IH. Qed.

Lemma getEvents_more (l : list Event.t) (k : nat) :
  getEvents (length l + k) (mk l) = (l ++ replicate k Event.new, new).
Proof.
  induction l as [|e l IH]; simpl.
  - apply getEvents_empty.
  - by rewrite IH.
Qed.

(** X2: polls in excess return events of the [None] kind without a
    file, as many as asked for: [n + k] polls of a queue of [n] events
    return the [n] events in order and then [k] times the event of a
    fresh [Event] set to [None], and leave the queue empty. *)
Theorem X2_polls_in_excess (q : t) (k : nat) :
  getEvents (length (m_events q) + k) q
  = (m_events q ++ replicate k (Event.mk Event.None []), new).
Proof. destruct q as [l]. apply getEvents_more. Qed.

End EventQueueUse.

(** ** The drop of files *)

Lemma substring_all (s : string) : String.substring 0 (String.length s) s = s.
Proof. induction s as [|c s IH]; simpl; [done|]. by rewrite IH. Qed.

Section WndprocProperties.

Variable to_utf8 : string → string.

(** The loop from any index on: [done] are the names already seen. *)
Lemma drop_files_loop (seen rest : list string) (files : Event.Files) :
  foldl (λ files index,
           let length := DragQueryFile_length (seen ++ rest) index in
           if bool_decide (length > 0)
           then files ++ [to_utf8 (DragQueryFile_copy (seen ++ rest) index (length + 1))]
           else files)
        files (seq (length seen) (length rest))
  = files ++ (to_utf8 <$> filter (λ name, name ≠ "") rest).
Proof.
  revert seen files. induction rest as [|name rest IH]; intros seen files; simpl.
  - by rewrite app_nil_r.
  - assert (Hlen : DragQueryFile_length (seen ++ name :: rest) (length seen)
                   = Z.of_nat (String.length name)).
    { unfold DragQueryFile_length, HDROP. by rewrite list_lookup_middle. }
    assert (Hcopy : ∀ cch, DragQueryFile_copy (seen ++ name :: rest) (length seen) cch
                           = String.substring 0 (Z.to_nat (cch - 1)) name).
    { intros cch. unfold DragQueryFile_copy, HDROP. by rewrite list_lookup_middle. }
    rewrite Hlen, Hcopy. clear Hlen Hcopy.
    replace (S (length seen)) with (length (seen ++ [name]))
      by (rewrite length_app; simpl; lia).
    replace (seen ++ name :: rest) with ((seen ++ [name]) ++ rest)
      by (by rewrite <- app_assoc).
    rewrite IH, filter_cons.
    destruct (decide (name ≠ "")) as [Hname|Hname].
    + rewrite bool_decide_eq_true_2 by (destruct name; [done|simpl; lia]).
      replace (Z.to_nat (Z.of_nat (String.length name) + 1 - 1))
        with (String.length name) by lia.
      rewrite substring_all. simpl. by rewrite <- app_assoc.
    + rewrite bool_decide_eq_false_2; [done|].
      destruct name; [simpl; lia|]. by destruct Hname.
Qed.

Lemma drop_files_names (hdrop : HDROP) :
  drop_files to_utf8 hdrop = to_utf8 <$> filter (λ name, name ≠ "") hdrop.
Proof. apply (drop_files_loop [] hdrop []). Qed.

(** X3: a drop of files queues, behind the events that wait, one event
    of the [DropFiles] kind, whose files are the names of the drop that
    are not empty, each whole (the buffer it is copied through cuts
    nothing) and converted by [to_utf8], in the order of the drop; a
    drop without any such name queues the event all the same, with no
    file.  Surface and scale are as they were, and the message is
    handed on to the procedure in place before.  Any other message is
    handed on and changes nothing. *)
Theorem X3_wndproc_drop (msg : Message) (unique_display : Alleg4Display.t) :
  let this' := (wndproc to_utf8 msg unique_display).1 in
  (wndproc to_utf8 msg unique_display).2 = msg ∧
  Alleg4Display.m_surface this' = Alleg4Display.m_surface unique_display ∧
  Alleg4Display.m_scale this' = Alleg4Display.m_scale unique_display ∧
  Alleg4EventQueue.m_events (Alleg4Display.getEventQueue this') =
    Alleg4EventQueue.m_events (Alleg4Display.getEventQueue unique_display) ++
    match msg with
    | WM_DROPFILES hdrop =>
        [Event.mk Event.DropFiles (to_utf8 <$> filter (λ name, name ≠ "") hdrop)]
    | WM_other _ => []
    end.
Proof.
  destruct msg as [hdrop|m]; simpl.
  - by rewrite drop_files_names.
  - by rewrite app_nil_r.
Qed.

End WndprocProperties.

(** Two files and a name that is empty are dropped on a display whose
    queue is empty: the poll gives the two files, the next poll
    [None]. *)
Example drop_then_poll :
  let this := (wndproc id (WM_DROPFILES ["a.png"; ""; "b.png"]) small_display).1 in
  Alleg4EventQueue.getEvents 2 (Alleg4Display.getEventQueue this)
  = ([Event.mk Event.DropFiles ["a.png"; "b.png"]; Event.mk Event.None []],
     Alleg4EventQueue.new).
Proof. vm_compute. reflexivity. Qed.

(** ** The flags *)

Lemma same_statics_allegro a w : same_statics w (set_allegro a w).
Proof. done. Qed.
Lemma same_statics_surfaces m w : same_statics w (set_surfaces m w).
Proof. done. Qed.

Lemma state_after_bind_ret {A B} (m : M A) (g : A → B) (w : World) :
  ((m ≫= λ a, mret (g a)) w).2 = (m w).2.
Proof. unfold mbind, M_bind. by destruct (m w) as [[a|e|] w']. Qed.

(** What [flip] does to [display_flags], however it ends: the resize
    flag is taken down if it is up, and that is all. *)
Lemma flip_flags (this : Alleg4Display.t) (w : World) :
  display_flags (Alleg4Display.flip this w).2 =
    if bool_decide (Z.land (display_flags w) DISPLAY_FLAG_WINDOW_RESIZE ≠ 0)
    then Z.lxor (display_flags w) DISPLAY_FLAG_WINDOW_RESIZE
    else display_flags w.
Proof.
  unfold Alleg4Display.flip.
  erewrite run_bind by reflexivity.
  case_bool_decide as Hflag.
  - erewrite run_bind by reflexivity.
    erewrite run_bind by reflexivity.
    match goal with |- display_flags (?rest ?w0).2 = _ =>
      assert (H : keeps same_statics rest); [|by destruct (H w0) as [-> _]]
    end.
    apply keeps_bind; [apply _|apply keeps_call_, same_statics_allegro|].
    intros _. apply keeps_bind; [apply _| |intros; apply keeps_ret, _].
    apply keeps_setScale;
      auto using same_statics_allegro, same_statics_surfaces with typeclass_instances.
  - match goal with |- display_flags (?rest ?w0).2 = _ =>
      assert (H : keeps same_statics rest); [|by destruct (H w0) as [-> _]]
    end.
    apply keeps_bind; [apply _| |].
    { apply keeps_nativeHandle;
        auto using same_statics_allegro, same_statics_surfaces with typeclass_instances. }
    intros bmp. apply keeps_bind; [apply _|apply keeps_gets, _|]. intros scr.
    apply keeps_bind; [apply _|apply keeps_gets, _|]. intros sw.
    apply keeps_bind; [apply _|apply keeps_gets, _|]. intros sh.
    apply keeps_bind; [apply _| |intros; apply keeps_ret, _].
    apply keeps_if.
    + apply keeps_call_defined; [apply _|apply same_statics_allegro].
    + apply keeps_bind; [apply _| |].
      * apply keeps_bitmap, _.
      * intros b. apply keeps_call_defined; [apply _|apply same_statics_allegro].
Qed.

Lemma testbit_1 (n : Z) : 0 ≤ n → Z.testbit 1 n = bool_decide (n = 0).
Proof.
  intros Hn. change 1 with (2 ^ 0). rewrite Z.pow2_bits_eqb by lia.
  case_bool_decide; [by apply Z.eqb_eq|apply Z.eqb_neq; congruence].
Qed.

Lemma land_1 (f : Z) : Z.land f 1 = if Z.testbit f 0 then 1 else 0.
Proof.
  apply Z.bits_inj'. intros n Hn. rewrite Z.land_spec, testbit_1 by done.
  case_bool_decide as H0.
  - subst n. destruct (Z.testbit f 0); simpl;
      rewrite ?testbit_1, ?Z.bits_0 by done; done.
  - rewrite andb_false_r. destruct (Z.testbit f 0); [|by rewrite Z.bits_0].
    rewrite testbit_1 by done. by rewrite bool_decide_eq_false_2.
Qed.

Lemma full_refresh_testbit (w : World) :
  full_refresh w ↔ Z.testbit (display_flags w) 0 = true.
Proof.
  unfold full_refresh, DISPLAY_FLAG_FULL_REFRESH. rewrite land_1.
  by destruct (Z.testbit (display_flags w) 0).
Qed.

Lemma perform_full_refresh (act : Action) (this : Alleg4Display.t) (w : World) :
  full_refresh w → full_refresh (perform act this w).2.
Proof.
  rewrite !full_refresh_testbit. intros Hup.
  destruct act as [ev| | |scale]; simpl.
  - unfold geometry_change, resize_callback, DISPLAY_FLAG_WINDOW_RESIZE.
    destruct (is_maximized ev); simpl;
      by rewrite <- ?Z.bit0_odd, Z.lor_spec, Hup.
  - unfold display_switch_in_callback, DISPLAY_FLAG_FULL_REFRESH; simpl.
    by rewrite <- ?Z.bit0_odd, Z.lor_spec, Hup.
  - rewrite (state_after_bind_ret (Alleg4Display.flip this) snd), flip_flags.
    case_bool_decide; [|done].
    unfold DISPLAY_FLAG_WINDOW_RESIZE.
    by rewrite <- ?Z.bit0_odd, Z.lxor_spec, Hup.
  - by destruct (keeps_setScale same_statics same_statics_allegro
                   same_statics_surfaces scale this w) as [-> _].
Qed.

Lemma perform_all_full_refresh (acts : list Action) (this : Alleg4Display.t)
    (w : World) :
  full_refresh w → full_refresh (perform_all acts this w).2.
Proof.
  revert this w. induction acts as [|act acts IH]; intros this w Hup; [done|].
  simpl. unfold mbind, M_bind.
  pose proof (perform_full_refresh act this w Hup) as Hact.
  destruct (perform act this w) as [[this1|e|] w1]; simpl in *; [|done..].
  by apply IH.
Qed.

(** X4: once [display_switch_in_callback] has run, the full-refresh
    flag is up, and it is up at the end of every run that follows, of
    whatever notifications, flips and changes of scale, and however the
    run ends: nothing in the file takes that flag down again ([flip]
    takes down the resize flag only). *)
Theorem X4_full_refresh_is_never_lowered (acts : list Action)
    (this : Alleg4Display.t) (w : World) :
  full_refresh (display_switch_in_callback w) ∧
  full_refresh (state_after (perform_all acts this) (display_switch_in_callback w)).
Proof.
  assert (Hup : full_refresh (display_switch_in_callback w)).
  { apply full_refresh_testbit.
    unfold display_switch_in_callback, DISPLAY_FLAG_FULL_REFRESH; simpl.
    by rewrite <- ?Z.bit0_odd, Z.lor_spec, orb_true_r. }
  split; [done|]. by apply perform_all_full_refresh.
Qed.

(** ** Notifications and recovery *)

Lemma geometry_changes_then_snoc evs ev w :
  geometry_changes_then (evs ++ [ev]) w
  = geometry_change ev (geometry_changes_then evs w).
Proof. unfold geometry_changes_then. by rewrite foldl_app. Qed.

Lemma geometry_changes_then_display_ok evs this w :
  display_ok this w →
  display_ok this (geometry_changes_then evs w) ∧
  driver (allegro (geometry_changes_then evs w)) = driver (allegro w).
Proof.
  intros Hok. induction evs as [|ev evs IH] using rev_ind; [done|].
  rewrite geometry_changes_then_snoc. destruct IH as [IH1 IH2]. split.
  - by apply geometry_change_display_ok.
  - rewrite <- IH2. unfold geometry_change, resize_callback.
    by destruct (is_maximized ev).
Qed.

(** X5: notifications of changes of geometry that arrive between two
    flips are recovered from together.  Take a display in the state its
    methods leave it in, and a machine that can allocate a buffer of
    the size given by the last notification divided by the scale.
    After any sequence of notifications,
    one [flip] returns [false] and leaves the display at the size given
    by the last notification, with a backbuffer of that size divided by
    the scale and the resize flag down; the [flip] after it presents
    and returns [true]. *)
Theorem X5_resizes_coalesce (evs : list RESIZE_DISPLAY_EVENT)
    (ev : RESIZE_DISPLAY_EVENT) (this : Alleg4Display.t) (w : World) :
  display_ok this w →
  drv_can_alloc (driver (allegro w))
    (new_w ev `quot` Alleg4Display.m_scale this)
    (new_h ev `quot` Alleg4Display.m_scale this) = true →
  ∃ (this' : Alleg4Display.t) (w' w'' : World),
    Alleg4Display.flip this (geometry_changes_then (evs ++ [ev]) w)
      = (Ok (false, this'), w') ∧
    SCREEN_W (allegro w') = new_w ev ∧ SCREEN_H (allegro w') = new_h ev ∧
    Alleg4Display.m_scale this' = Alleg4Display.m_scale this ∧
    backbuffer_size this' w'
      = (Ok (new_w ev `quot` Alleg4Display.m_scale this,
             new_h ev `quot` Alleg4Display.m_scale this), w') ∧
    ¬ window_resize w' ∧
    Alleg4Display.flip this' w' = (Ok (true, this'), w'').
Proof.
  intros Hok Hmem. rewrite geometry_changes_then_snoc.
  destruct (geometry_changes_then_display_ok evs this w Hok) as [Hok1 Hdrv1].
  set (w1 := geometry_changes_then evs w) in *.
  destruct (geometry_change_display_ok ev this w1 Hok1)
    as ([Hscale (p & b & B & Hbb & _)] & Hflag & Hww & Hwh).
  set (w2 := geometry_change ev w1) in *.
  assert (Hdrv2 : driver (allegro w2) = driver (allegro w)).
  { rewrite <- Hdrv1. unfold w2, geometry_change, resize_callback.
    by destruct (is_maximized ev). }
  clearbody w2.
  rewrite <- Hdrv2, <- Hww, <- Hwh in Hmem.
  destruct (flip_recovers this w2 p b B Hscale Hbb Hflag Hmem)
    as (p' & b' & w' & Hrun & Hbb' & HW & HH & _ & Hflags & _).
  simpl in Hrun, Hbb'.
  set (this' := Alleg4Display.mk (Some p') (Alleg4Display.m_scale this)
                  (Alleg4Display.m_queue this)) in *.
  assert (Hdown : Z.land (display_flags w') DISPLAY_FLAG_WINDOW_RESIZE = 0).
  { rewrite Hflags. by apply resize_flag_cleared. }
  destruct (flip_presents this' w' p' b' _ Hdown Hbb') as (w'' & c & Hflip & _).
  exists this', w', w''. split; [done|].
  split; [by rewrite HW|]. split; [by rewrite HH|]. split; [done|].
  split.
  { destruct Hbb' as (Hs1 & Hs2 & Hs3 & _).
    rewrite (run_backbuffer_size this' w' p' b' _ Hs1 Hs2 Hs3); simpl.
    by rewrite Hww, Hwh. }
  split; [|done]. unfold window_resize. rewrite Hdown. intros H. by apply H.
Qed.

Lemma X5_resizes_coalesce_witness :
  let evs := [ {| old_w := 64; old_h := 48; new_w := 70; new_h := 50;
                  is_maximized := false; is_restored := false |};
               {| old_w := 70; old_h := 50; new_w := 75; new_h := 55;
                  is_maximized := false; is_restored := false |} ] in
  let ev := resize_by_hand in
  let this := small_display in
  let w := small_display_world in
  (display_ok this w ∧
   drv_can_alloc (driver (allegro w))
     (new_w ev `quot` Alleg4Display.m_scale this)
     (new_h ev `quot` Alleg4Display.m_scale this) = true) ∧
  ∃ (this' : Alleg4Display.t) (w' w'' : World),
    Alleg4Display.flip this (geometry_changes_then (evs ++ [ev]) w)
      = (Ok (false, this'), w') ∧
    SCREEN_W (allegro w') = new_w ev ∧ SCREEN_H (allegro w') = new_h ev ∧
    Alleg4Display.m_scale this' = Alleg4Display.m_scale this ∧
    backbuffer_size this' w'
      = (Ok (new_w ev `quot` Alleg4Display.m_scale this,
             new_h ev `quot` Alleg4Display.m_scale this), w') ∧
    ¬ window_resize w' ∧
    Alleg4Display.flip this' w' = (Ok (true, this'), w'').
Proof.
  intros evs ev this w.
  assert (Hmem : drv_can_alloc (driver (allegro w))
            (new_w ev `quot` Alleg4Display.m_scale this)
            (new_h ev `quot` Alleg4Display.m_scale this) = true)
    by (vm_compute; reflexivity).
  split; [exact (conj small_display_ok Hmem)|].
  exact (X5_resizes_coalesce evs ev this w small_display_ok Hmem).
Defined.

(** ** The display from its creation on *)

(** X6: on a machine that refuses nothing and always allocates, a
    display created at a scale of at least 1 goes through every run of
    notifications, flips and changes of scale (to scales of at least 1)
    without a failure, and at the end of the run its backbuffer has the
    physical size of that moment divided by its scale. *)
Theorem X6_backbuffer_along_runs (width height scale : Z) (acts : list Action)
    (w : World) :
  refusal (allegro w) width height = None →
  always_allocates (driver (allegro w)) →
  1 ≤ scale → Forall valid_action acts →
  ∃ (this : Alleg4Display.t) (w' : World),
    created_then width height scale acts w = (Ok this, w') ∧
    1 ≤ Alleg4Display.m_scale this ∧
    backbuffer_size this w' =
      (Ok (SCREEN_W (allegro w') `quot` Alleg4Display.m_scale this,
           SCREEN_H (allegro w') `quot` Alleg4Display.m_scale this), w').
Proof.
  intros Hrefusal Hmem Hscale Hvalid.
  destruct (created_then_backbuffer width height scale acts w
              Hrefusal Hmem Hscale Hvalid) as (this & w' & Hrun & [Hs _] & Hsize).
  by exists this, w'.
Qed.

Lemma desktop_always_allocates : always_allocates desktop.
Proof. by intros w h. Defined.

Lemma X6_backbuffer_along_runs_witness :
  let acts := [act_setScale 2; act_geometry_change resize_by_hand; act_switch_in;
               act_flip; act_flip; act_setScale 3; act_flip] in
  let w := boot desktop in
  (refusal (allegro w) 64 48 = None ∧ always_allocates (driver (allegro w)) ∧
   1 ≤ 1 ∧ Forall valid_action acts) ∧
  ∃ (this : Alleg4Display.t) (w' : World),
    created_then 64 48 1 acts w = (Ok this, w') ∧
    1 ≤ Alleg4Display.m_scale this ∧
    backbuffer_size this w' =
      (Ok (SCREEN_W (allegro w') `quot` Alleg4Display.m_scale this,
           SCREEN_H (allegro w') `quot` Alleg4Display.m_scale this), w').
Proof.
  intros acts w.
  assert (H1 : refusal (allegro w) 64 48 = None) by reflexivity.
  assert (H2 : always_allocates (driver (allegro w))) by exact desktop_always_allocates.
  assert (H3 : 1 ≤ 1) by lia.
  assert (H4 : Forall valid_action acts) by (repeat constructor; simpl; lia).
  split; [exact (conj H1 (conj H2 (conj H3 H4)))|].
  exact (X6_backbuffer_along_runs 64 48 1 acts w H1 H2 H3 H4).
Defined.

(** The run of the witness, evaluated: the window ends at 80 by 60 and
    the scale at 3, so the backbuffer is 26 by 20. *)
Example run_evaluated :
  let acts := [act_setScale 2; act_geometry_change resize_by_hand; act_switch_in;
               act_flip; act_flip; act_setScale 3; act_flip] in
  let r := created_then 64 48 1 acts (boot desktop) in
  match r.1 with
  | Ok this => value_of (backbuffer_size this) r.2
  | Throw e => Throw e
  | Fault => Fault
  end = Ok (26, 20).
Proof. vm_compute. reflexivity. Qed.

(** ** Creation, in full *)

(** The state a successful creation leaves: what is allocated, what is
    reported, and what has been called. *)
Lemma createDisplay_state (width height scale : Z) (w : World) :
  refusal (allegro w) width height = None →
  1 ≤ scale →
  drv_can_alloc (driver (allegro w)) (width `quot` scale) (height `quot` scale) = true →
  ∃ (p b ps : positive) (w' : World),
    Alleg4System.createDisplay width height scale w
      = (Ok (Alleg4Display.mk (Some p) scale Alleg4EventQueue.new), w') ∧
    ps ≠ b ∧ bitmaps (allegro w) !! b = None ∧ bitmaps (allegro w) !! ps = None ∧
    surfaces w !! p = None ∧
    screen (allegro w') = Some ps ∧
    bitmaps (allegro w') =
      <[b := blank_bitmap (width `quot` scale) (height `quot` scale)]>
        (<[ps := blank_bitmap width height]> (bitmaps (allegro w))) ∧
    surfaces w' = <[p := {| m_bmp := Some b; m_destroy := AutoDestroy |}]> (surfaces w) ∧
    SCREEN_W (allegro w') = width ∧ SCREEN_H (allegro w') = height ∧
    window_w (allegro w') = width ∧ window_h (allegro w') = height ∧
    allegro_error (allegro w') = allegro_error (allegro w) ∧
    driver (allegro w') = driver (allegro w) ∧
    same_statics w w' ∧
    calls (allegro w') = calls (allegro w) ++
      [call_install_mouse; call_install_keyboard;
       call_set_color_depth (drv_desktop_color_depth (driver (allegro w)));
       call_set_gfx_mode width height;
       call_create_bitmap (width `quot` scale) (height `quot` scale);
       call_set_display_switch_callback; call_set_resize_callback].
Proof.
  intros Hrefusal Hscale Hmem.
  destruct (refusal_None _ _ _ Hrefusal) as (Hm & Hk & Hg).
  unfold Alleg4System.createDisplay, Alleg4Display.new.
  erewrite run_bind by reflexivity. simpl.
  rewrite !bool_decide_eq_false_2 by exact Hm.
  erewrite run_bind by reflexivity.
  erewrite run_bind by reflexivity. simpl.
  rewrite !bool_decide_eq_false_2 by exact Hk.
  erewrite run_bind by reflexivity.
  erewrite run_bind by reflexivity.
  erewrite run_bind by reflexivity.
  erewrite (run_bind (call (set_gfx_mode width height))).
  2:{ unfold call, set_gfx_mode; simpl.
      rewrite !bool_decide_eq_false_2 by exact Hg.
      reflexivity. }
  rewrite bool_decide_eq_false_2 by exact Hg.
  erewrite run_bind by reflexivity.
  erewrite run_bind by (apply run_setScale_first; [exact Hscale|exact Hmem]).
  unfold rescaled; simpl.
  erewrite run_bind by reflexivity.
  erewrite run_bind by reflexivity.
  set (ps := fresh (dom (bitmaps (allegro w)))).
  set (m1 := <[ps := blank_bitmap width height]> (bitmaps (allegro w))).
  assert (Hps : m1 !! ps = Some (blank_bitmap width height)) by apply lookup_insert_eq.
  assert (Hne : fresh (dom m1) ≠ ps) by (by eapply fresh_ne).
  assert (Hb : bitmaps (allegro w) !! fresh (dom m1) = None).
  { pose proof (fresh_unallocated m1) as Hf. unfold m1 in Hf at 1.
    by apply lookup_insert_None in Hf as [Hf _]. }
  exists (fresh (dom (surfaces w))), (fresh (dom m1)), ps. eexists.
  split; [reflexivity|]. simpl.
  split; [done|]. split; [done|]. split; [apply fresh_unallocated|].
  split; [apply fresh_unallocated|].
  do 9 (split; [done|]).
  by rewrite <- !app_assoc.
Qed.

(** X7: on a machine that installs the mouse and the keyboard, sets the
    mode and allocates the backbuffer, the creation of a display at a
    scale of at least 1 returns a display of that scale with an empty
    queue; the physical size is the size asked for, the backbuffer has
    that size divided by the scale; the statics and [allegro_error] are
    untouched; and Allegro has been called, once each and in this
    order, for the mouse, the keyboard, the colour depth of the
    desktop, the mode, the bitmap of the backbuffer and the two
    callbacks. *)
Theorem X7_createDisplay_succeeds (width height scale : Z) (w : World) :
  refusal (allegro w) width height = None →
  1 ≤ scale →
  drv_can_alloc (driver (allegro w)) (width `quot` scale) (height `quot` scale) = true →
  ∃ (this : Alleg4Display.t) (w' : World),
    Alleg4System.createDisplay width height scale w = (Ok this, w') ∧
    Alleg4Display.m_scale this = scale ∧
    Alleg4Display.getEventQueue this = Alleg4EventQueue.new ∧
    Alleg4Display.width w' = (Ok width, w') ∧
    Alleg4Display.height w' = (Ok height, w') ∧
    backbuffer_size this w' = (Ok (width `quot` scale, height `quot` scale), w') ∧
    same_statics w w' ∧
    allegro_error (allegro w') = allegro_error (allegro w) ∧
    calls (allegro w') = calls (allegro w) ++
      [call_install_mouse; call_install_keyboard;
       call_set_color_depth (drv_desktop_color_depth (driver (allegro w)));
       call_set_gfx_mode width height;
       call_create_bitmap (width `quot` scale) (height `quot` scale);
       call_set_display_switch_callback; call_set_resize_callback].
Proof.
  intros Hrefusal Hscale Hmem.
  destruct (createDisplay_state width height scale w Hrefusal Hscale Hmem)
    as (p & b & ps & w' & Hrun & Hpsb & _ & _ & _ & _ & Hbitmaps & Hsurfaces
        & HW & HH & _ & _ & Herr & _ & Hstat & Hcalls).
  do 2 eexists. split; [exact Hrun|]. split; [done|]. split; [done|].
  split; [unfold Alleg4Display.width, gets; by rewrite HW|].
  split; [unfold Alleg4Display.height, gets; by rewrite HH|].
  split; [|done].
  rewrite (run_backbuffer_size _ w' p b
             (blank_bitmap (width `quot` scale) (height `quot` scale)));
    [done|done|..].
  - rewrite Hsurfaces. apply lookup_insert_eq.
  - rewrite Hbitmaps. apply lookup_insert_eq.
Qed.

Lemma X7_createDisplay_succeeds_witness :
  let w := boot desktop in
  (refusal (allegro w) 640 480 = None ∧ 1 ≤ 2 ∧
   drv_can_alloc (driver (allegro w)) (640 `quot` 2) (480 `quot` 2) = true) ∧
  ∃ (this : Alleg4Display.t) (w' : World),
    Alleg4System.createDisplay 640 480 2 w = (Ok this, w') ∧
    Alleg4Display.m_scale this = 2 ∧
    Alleg4Display.getEventQueue this = Alleg4EventQueue.new ∧
    Alleg4Display.width w' = (Ok 640, w') ∧
    Alleg4Display.height w' = (Ok 480, w') ∧
    backbuffer_size this w' = (Ok (640 `quot` 2, 480 `quot` 2), w') ∧
    same_statics w w' ∧
    allegro_error (allegro w') = allegro_error (allegro w) ∧
    calls (allegro w') = calls (allegro w) ++
      [call_install_mouse; call_install_keyboard;
       call_set_color_depth (drv_desktop_color_depth (driver (allegro w)));
       call_set_gfx_mode 640 480;
       call_create_bitmap (640 `quot` 2) (480 `quot` 2);
       call_set_display_switch_callback; call_set_resize_callback].
Proof.
  intros w.
  assert (H1 : refusal (allegro w) 640 480 = None) by reflexivity.
  assert (H2 : 1 ≤ 2) by lia.
  assert (H3 : drv_can_alloc (driver (allegro w)) (640 `quot` 2) (480 `quot` 2) = true)
    by reflexivity.
  split; [exact (conj H1 (conj H2 H3))|].
  exact (X7_createDisplay_succeeds 640 480 2 w H1 H2 H3).
Defined.

(** ** Presentation at scale 1 *)

Lemma getpixel_outside (b : BITMAP) (x y : Z) :
  bitmap_wf b → ¬ (0 ≤ x < bmp_w b ∧ 0 ≤ y < bmp_h b) → getpixel b x y = None.
Proof.
  intros (Hw & Hh & Hlen & Hrows) Hout. unfold getpixel, pixel_at.
  case_bool_decide as Hpos; [|done].
  destruct (bmp_line b !! Z.to_nat y) as [row|] eqn:Hrow; simpl; [|done].
  apply lookup_ge_None.
  rewrite (Forall_lookup_1 _ _ _ _ Hrows Hrow).
  apply lookup_lt_Some in Hrow. lia.
Qed.

(** [flip] at scale 1 with the resize flag down, as a state. *)
Lemma run_flip_blit (this : Alleg4Display.t) (w : World) (p b ps : positive)
    (B S : BITMAP) :
  Z.land (display_flags w) DISPLAY_FLAG_WINDOW_RESIZE = 0 →
  Alleg4Display.m_scale this = 1 →
  Alleg4Display.m_surface this = Some p →
  surfaces w !! p = Some {| m_bmp := Some b; m_destroy := AutoDestroy |} →
  bitmaps (allegro w) !! b = Some B →
  screen (allegro w) = Some ps → bitmaps (allegro w) !! ps = Some S →
  Alleg4Display.flip this w =
    (Ok (true, this),
     set_allegro
       (set_bitmaps
          (<[ps := blit_bitmap B S 0 0 0 0 (SCREEN_W (allegro w)) (SCREEN_H (allegro w))]>
             (bitmaps (allegro w)))
          (log (call_blit (Some b) (Some ps) 0 0 0 0
                  (SCREEN_W (allegro w)) (SCREEN_H (allegro w))) (allegro w))) w).
Proof.
  intros Hflag Hone Hp Hs Hb Hscr Hps.
  unfold Alleg4Display.flip.
  erewrite run_bind by reflexivity.
  rewrite bool_decide_eq_false_2 by (intros H; by apply H).
  rewrite Hp.
  erewrite (run_bind (Alleg4Surface.nativeHandle _)).
  2:{ unfold Alleg4Surface.nativeHandle.
      erewrite run_bind by (apply run_members; exact Hs). reflexivity. }
  erewrite run_bind by reflexivity.
  erewrite run_bind by reflexivity.
  erewrite run_bind by reflexivity. simpl.
  rewrite bool_decide_eq_true_2 by done.
  unfold mbind at 1, M_bind, call_defined, blit, deref_bitmap; simpl.
  rewrite Hb, Hscr; simpl. rewrite Hps; simpl. reflexivity.
Qed.

(** X8: at scale 1 and with the resize flag down, [flip] returns [true]
    and leaves on [screen] the image of the backbuffer, pixel for
    pixel; the backbuffer, the sizes and the flags are as they were, so
    the display is again in a state in which [flip] presents. *)
Theorem X8_flip_presents_backbuffer (this : Alleg4Display.t) (w : World)
    (b ps : positive) (B S : BITMAP) :
  display_wf this w b ps B S →
  Alleg4Display.m_scale this = 1 →
  ¬ window_resize w →
  ∃ (w' : World) (S' : BITMAP),
    Alleg4Display.flip this w = (Ok (true, this), w') ∧
    (∀ x y : Z, getpixel S' x y = getpixel B x y) ∧
    display_wf this w' b ps B S' ∧
    display_flags w' = display_flags w ∧
    calls (allegro w') = calls (allegro w) ++
      [call_blit (Some b) (Some ps) 0 0 0 0
         (SCREEN_W (allegro w)) (SCREEN_H (allegro w))].
Proof.
  intros (p & Hp & Hs & Hb & Hscr & Hps & Hne & HBwf & HSwf & HSw & HSh & HBw & HBh)
    Hone Hflag.
  assert (Hdown : Z.land (display_flags w) DISPLAY_FLAG_WINDOW_RESIZE = 0).
  { unfold window_resize in Hflag.
    destruct (decide (Z.land (display_flags w) DISPLAY_FLAG_WINDOW_RESIZE = 0));
      [done|by destruct Hflag]. }
  rewrite (run_flip_blit this w p b ps B S Hdown Hone Hp Hs Hb Hscr Hps).
  rewrite Hone, !Z.quot_1_r in HBw, HBh.
  set (W := SCREEN_W (allegro w)) in *. set (H := SCREEN_H (allegro w)) in *.
  assert (HW : 0 ≤ W) by (destruct HSwf as (? & _); lia).
  assert (HH : 0 ≤ H) by (destruct HSwf as (_ & ? & _); lia).
  destruct (blit_bitmap_pixels B S 0 0 0 0 W H HBwf HSwf) as (Hwf' & Hw' & Hh' & Hpix);
    [unfold inside; lia..|].
  do 2 eexists. split; [reflexivity|]. split; [|split; [|done]].
  - intros x y. rewrite Hpix. case_bool_decide as Hin.
    + f_equal; lia.
    + rewrite !getpixel_outside; [done|done|lia|done|lia].
  - exists p. simpl. split; [done|]. split; [done|].
    split; [by rewrite lookup_insert_ne|]. split; [done|].
    split; [apply lookup_insert_eq|]. split; [done|].
    split; [done|]. split; [done|].
    rewrite Hw', Hh', Hone, !Z.quot_1_r. by fold W H.
Qed.

Lemma small_display_wf :
  display_wf small_display small_display_world 2%positive 1%positive
    (blank_bitmap 64 48) (blank_bitmap 64 48).
Proof.
  exists 1%positive.
  split; [reflexivity|]. split; [vm_compute; reflexivity|].
  split; [vm_compute; reflexivity|]. split; [vm_compute; reflexivity|].
  split; [vm_compute; reflexivity|]. split; [done|].
  split; [apply blank_bitmap_wf; lia|]. split; [apply blank_bitmap_wf; lia|].
  repeat split; vm_compute; reflexivity.
Defined.

Lemma small_display_flag_down : ¬ window_resize small_display_world.
Proof. intros H. apply H. vm_compute. reflexivity. Defined.

Lemma X8_flip_presents_backbuffer_witness :
  let this := small_display in
  let w := small_display_world in
  let B := blank_bitmap 64 48 in
  (display_wf this w 2%positive 1%positive B B ∧
   Alleg4Display.m_scale this = 1 ∧ ¬ window_resize w) ∧
  ∃ (w' : World) (S' : BITMAP),
    Alleg4Display.flip this w = (Ok (true, this), w') ∧
    (∀ x y : Z, getpixel S' x y = getpixel B x y) ∧
    display_wf this w' 2%positive 1%positive B S' ∧
    display_flags w' = display_flags w ∧
    calls (allegro w') = calls (allegro w) ++
      [call_blit (Some 2%positive) (Some 1%positive) 0 0 0 0
         (SCREEN_W (allegro w)) (SCREEN_H (allegro w))].
Proof.
  intros this w B.
  split; [exact (conj small_display_wf (conj eq_refl small_display_flag_down))|].
  exact (X8_flip_presents_backbuffer this w 2%positive 1%positive B B
           small_display_wf eq_refl small_display_flag_down).
Defined.

(** A display of 3 by 2 is created beside the two surfaces, surface 1
    is copied to its backbuffer and the display is flipped: [screen]
    shows the six pixels. *)
Example draw_then_flip :
  let shown :=
    this ← Alleg4System.createDisplay 3 2 1;
    Alleg4Surface.blitTo (Some 1%positive) (Alleg4Display.getSurface this) 0 0 0 0 3 2;;
    r ← Alleg4Display.flip this;
    scr ← gets (λ w, screen (allegro w));
    S ← Alleg4Surface.bitmap scr;
    mret (r.1, bmp_line S) in
  value_of shown two_surfaces = Ok (true, [[11; 12; 13]; [21; 22; 23]]).
Proof. vm_compute. reflexivity. Qed.

(** ** A surface whose buffer could not be allocated *)

(** X9: when Allegro cannot allocate the buffer, the surface that
    [createSurface] returns has the null pointer for native handle;
    [width], [height] and [blitTo] from it do not return (they read
    through the null pointer, or fail the assertion on it) and change
    nothing; [dispose] returns, frees the surface and leaves the
    bitmaps and the surfaces as they were before the creation. *)
Theorem X9_surface_without_buffer (width height : Z) (w : World) :
  drv_can_alloc (driver (allegro w)) width height = false →
  ∃ (p : positive) (w' w'' : World),
    Alleg4System.createSurface width height w = (Ok (Some p), w') ∧
    Alleg4Surface.nativeHandle (Some p) w' = (Ok NULL, w') ∧
    Alleg4Surface.width (Some p) w' = (Fault, w') ∧
    Alleg4Surface.height (Some p) w' = (Fault, w') ∧
    (∀ (dest : ptr) (srcx srcy dstx dsty bw bh : Z),
       Alleg4Surface.blitTo (Some p) dest srcx srcy dstx dsty bw bh w' = (Fault, w')) ∧
    Alleg4Surface.dispose (Some p) w' = (Ok (), w'') ∧
    surfaces w'' = surfaces w ∧
    bitmaps (allegro w'') = bitmaps (allegro w) ∧
    calls (allegro w'') = calls (allegro w) ++
      [call_create_bitmap width height; call_destroy_bitmap NULL].
Proof.
  intros Hmem.
  unfold Alleg4System.createSurface, Alleg4Surface.create.
  unfold mbind at 1, M_bind, call. rewrite run_create_bitmap, Hmem; simpl.
  rewrite run_new; simpl.
  set (p := fresh (dom (surfaces w))).
  set (s := {| m_bmp := NULL; m_destroy := AutoDestroy |}).
  set (w' := set_surfaces _ _).
  assert (Hs : surfaces w' !! p = Some s) by apply lookup_insert_eq.
  exists p, w'. eexists. split; [reflexivity|].
  split.
  { unfold Alleg4Surface.nativeHandle.
    by erewrite run_bind by (apply run_members; exact Hs). }
  split.
  { unfold Alleg4Surface.width.
    by erewrite run_bind by (apply run_members; exact Hs). }
  split.
  { unfold Alleg4Surface.height.
    by erewrite run_bind by (apply run_members; exact Hs). }
  split.
  { intros dest srcx srcy dstx dsty bw bh. unfold Alleg4Surface.blitTo.
    by erewrite run_bind by (apply run_members; exact Hs). }
  rewrite (run_dispose p s w' Hs); simpl.
  split; [reflexivity|]. simpl.
  split; [apply delete_insert_id, fresh_unallocated|].
  split; [done|]. by rewrite <- app_assoc.
Qed.

Lemma X9_surface_without_buffer_witness :
  let w := boot no_memory in
  drv_can_alloc (driver (allegro w)) 320 240 = false ∧
  ∃ (p : positive) (w' w'' : World),
    Alleg4System.createSurface 320 240 w = (Ok (Some p), w') ∧
    Alleg4Surface.nativeHandle (Some p) w' = (Ok NULL, w') ∧
    Alleg4Surface.width (Some p) w' = (Fault, w') ∧
    Alleg4Surface.height (Some p) w' = (Fault, w') ∧
    (∀ (dest : ptr) (srcx srcy dstx dsty bw bh : Z),
       Alleg4Surface.blitTo (Some p) dest srcx srcy dstx dsty bw bh w' = (Fault, w')) ∧
    Alleg4Surface.dispose (Some p) w' = (Ok (), w'') ∧
    surfaces w'' = surfaces w ∧
    bitmaps (allegro w'') = bitmaps (allegro w) ∧
    calls (allegro w'') = calls (allegro w) ++
      [call_create_bitmap 320 240; call_destroy_bitmap NULL].
Proof.
  intros w.
  assert (H : drv_can_alloc (driver (allegro w)) 320 240 = false) by reflexivity.
  split; [exact H|].
  exact (X9_surface_without_buffer 320 240 w H).
Defined.

(** ** The lifetime of a display *)

Lemma fresh_insert {V} (m : gmap positive V) (k : positive) (v : V) :
  fresh (dom (<[k := v]> m)) ≠ k ∧ m !! fresh (dom (<[k := v]> m)) = None.
Proof.
  pose proof (fresh_unallocated (<[k := v]> m)) as Hf.
  apply lookup_insert_None in Hf as [Hf Hne]. split; [congruence|done].
Qed.

Lemma createDisplay_owns (width height scale : Z) (w : World) :
  refusal (allegro w) width height = None →
  1 ≤ scale →
  drv_can_alloc (driver (allegro w)) (width `quot` scale) (height `quot` scale) = true →
  ∃ (this : Alleg4Display.t) (w' : World),
    Alleg4System.createDisplay width height scale w = (Ok this, w') ∧
    display_owns this w' (bitmaps (allegro w)) (surfaces w) ∧
    driver (allegro w') = driver (allegro w).
Proof.
  intros Hrefusal Hscale Hmem.
  destruct (createDisplay_state width height scale w Hrefusal Hscale Hmem)
    as (p & b & ps & w' & Hrun & Hpsb & Hb & Hps & Hp & Hscr & Hbitmaps & Hsurfaces
        & _ & _ & _ & _ & _ & Hdrv & _).
  do 2 eexists. split; [exact Hrun|]. split; [|done].
  split; [done|]. by eexists p, b, ps, _, _.
Qed.

Lemma setScale_owns (scale : Z) (this : Alleg4Display.t) (w : World)
    (m0 : gmap positive BITMAP) (s0 : gmap positive Alleg4Surface_t) :
  1 ≤ scale → display_owns this w m0 s0 →
  drv_can_alloc (driver (allegro w))
    (SCREEN_W (allegro w) `quot` scale) (SCREEN_H (allegro w) `quot` scale) = true →
  ∃ (this' : Alleg4Display.t) (w' : World),
    Alleg4Display.setScale scale this w = (Ok this', w') ∧
    display_owns this' w' m0 s0 ∧ driver (allegro w') = driver (allegro w).
Proof.
  intros Hscale Howns Hmem.
  destruct (decide (Alleg4Display.m_scale this = scale)) as [Heq|Hne].
  { exists this, w. by rewrite (run_setScale_same scale this w Hscale Heq). }
  destruct Howns as [_ (p & b & ps & B & S & Hp & Hscr & Hpsb & Hb & Hps & Hs0
                        & Hbitmaps & Hsurfaces)].
  assert (Hsurf : surfaces w !! p = Some {| m_bmp := Some b; m_destroy := AutoDestroy |})
    by (rewrite Hsurfaces; apply lookup_insert_eq).
  rewrite (run_setScale_change scale this w p b Hscale Hne Hp Hsurf Hmem).
  unfold rescaled. rewrite Hbitmaps, Hsurfaces.
  set (X := blank_bitmap _ _).
  destruct (fresh_insert (<[ps := S]> m0) b B) as [Hb'b Hb'].
  apply lookup_insert_None in Hb' as [Hb'm0 Hb'ps].
  destruct (fresh_insert s0 p {| m_bmp := Some b; m_destroy := AutoDestroy |})
    as [Hp'p Hp's0].
  set (b' := fresh (dom (<[b := B]> (<[ps := S]> m0)))) in *.
  set (p' := fresh (dom (<[p := _]> s0))) in *.
  do 2 eexists. split; [reflexivity|]. split; [|done].
  split; [done|]. exists p', b', ps, X, S. simpl.
  split; [done|]. split; [done|]. split; [done|]. do 3 (split; [done|]).
  split.
  - rewrite delete_insert_ne by congruence.
    rewrite delete_insert_id; [done|]. by rewrite lookup_insert_ne.
  - rewrite delete_insert_ne by congruence. by rewrite delete_insert_id.
Qed.

(** [flip] with the resize flag down, as a state: one bitmap changes,
    [screen]. *)
Lemma run_flip_present (this : Alleg4Display.t) (w : World) (p b ps : positive)
    (B S : BITMAP) :
  Z.land (display_flags w) DISPLAY_FLAG_WINDOW_RESIZE = 0 →
  Alleg4Display.m_surface this = Some p →
  surfaces w !! p = Some {| m_bmp := Some b; m_destroy := AutoDestroy |} →
  bitmaps (allegro w) !! b = Some B →
  screen (allegro w) = Some ps → bitmaps (allegro w) !! ps = Some S →
  ∃ (S' : BITMAP) (c : Call),
    Alleg4Display.flip this w =
      (Ok (true, this),
       set_allegro
         (set_bitmaps (<[ps := S']> (bitmaps (allegro w))) (log c (allegro w))) w).
Proof.
  intros Hflag Hp Hs Hb Hscr Hps.
  unfold Alleg4Display.flip.
  erewrite run_bind by reflexivity.
  rewrite bool_decide_eq_false_2 by (intros H; by apply H).
  rewrite Hp.
  erewrite (run_bind (Alleg4Surface.nativeHandle _)).
  2:{ unfold Alleg4Surface.nativeHandle.
      erewrite run_bind by (apply run_members; exact Hs). reflexivity. }
  erewrite run_bind by reflexivity.
  erewrite run_bind by reflexivity.
  erewrite run_bind by reflexivity. simpl.
  case_bool_decide as Hone.
  - unfold mbind at 1, M_bind, call_defined, blit, deref_bitmap; simpl.
    rewrite Hb, Hscr; simpl. rewrite Hps; simpl. by do 2 eexists.
  - unfold mbind at 1, M_bind.
    unfold mbind at 1, M_bind, Alleg4Surface.bitmap.
    unfold mbind at 1, M_bind, gets, deref_bitmap; simpl. rewrite Hb; simpl.
    unfold call_defined, stretch_blit, deref_bitmap; simpl.
    rewrite Hb, Hscr; simpl. rewrite Hps; simpl. by do 2 eexists.
Qed.

Lemma flip_owns (this : Alleg4Display.t) (w : World)
    (m0 : gmap positive BITMAP) (s0 : gmap positive Alleg4Surface_t) :
  display_owns this w m0 s0 →
  drv_can_alloc (driver (allegro w))
    (window_w (allegro w) `quot` Alleg4Display.m_scale this)
    (window_h (allegro w) `quot` Alleg4Display.m_scale this) = true →
  ∃ (presented : bool) (this' : Alleg4Display.t) (w' : World),
    Alleg4Display.flip this w = (Ok (presented, this'), w') ∧
    display_owns this' w' m0 s0 ∧ driver (allegro w') = driver (allegro w).
Proof.
  intros [Hscale (p & b & ps & B & S & Hp & Hscr & Hpsb & Hb & Hps & Hs0
                  & Hbitmaps & Hsurfaces)] Hmem.
  assert (Hsurf : surfaces w !! p = Some {| m_bmp := Some b; m_destroy := AutoDestroy |})
    by (rewrite Hsurfaces; apply lookup_insert_eq).
  destruct (decide (Z.land (display_flags w) DISPLAY_FLAG_WINDOW_RESIZE = 0))
    as [Hdown|Hup].
  - destruct (run_flip_present this w p b ps B S Hdown Hp Hsurf) as (S' & c & ->);
      [by rewrite Hbitmaps, lookup_insert_eq|done| |].
    { rewrite Hbitmaps, lookup_insert_ne by done. apply lookup_insert_eq. }
    do 3 eexists. split; [reflexivity|]. split; [|done].
    split; [done|]. exists p, b, ps, B, S'. simpl.
    do 6 (split; [done|]). split; [|done].
    rewrite Hbitmaps, insert_insert_ne by done. by rewrite insert_insert_eq.
  - unfold Alleg4Display.flip.
    erewrite run_bind by reflexivity.
    rewrite bool_decide_eq_true_2 by done.
    erewrite run_bind by reflexivity.
    erewrite run_bind by reflexivity.
    erewrite run_bind by reflexivity.
    unfold acknowledge_resize; simpl. rewrite Hscr, Hbitmaps; simpl.
    rewrite delete_insert_ne by done.
    rewrite delete_insert_id by done.
    set (Y := blank_bitmap _ _).
    destruct (fresh_insert m0 b B) as [Hps'b Hps'].
    set (ps' := fresh (dom (<[b := B]> m0))) in *.
    erewrite run_bind.
    2:{ apply (run_setScale_change _ _ _ p b); simpl;
          [done|lia|done|done|exact Hmem]. }
    unfold rescaled; simpl.
    set (X := blank_bitmap _ _).
    destruct (fresh_insert (<[b := B]> m0) ps' Y) as [Hb'ps' Hb'].
    apply lookup_insert_None in Hb' as [Hb'm0 Hb'b].
    destruct (fresh_insert s0 p {| m_bmp := Some b; m_destroy := AutoDestroy |})
      as [Hp'p Hp's0].
    rewrite Hsurfaces.
    set (b' := fresh (dom (<[ps' := Y]> (<[b := B]> m0)))) in *.
    set (p' := fresh (dom (<[p := _]> s0))) in *.
    do 3 eexists. split; [reflexivity|]. split; [|done].
    split; [done|]. exists p', b', ps', X, Y. simpl.
    split; [done|]. split; [done|]. split; [congruence|]. do 3 (split; [done|]).
    split.
    + rewrite delete_insert_ne by congruence.
      rewrite delete_insert_ne by congruence.
      by rewrite delete_insert_id.
    + rewrite delete_insert_ne by congruence. by rewrite delete_insert_id.
Qed.

Lemma perform_owns (act : Action) (this : Alleg4Display.t) (w : World)
    (m0 : gmap positive BITMAP) (s0 : gmap positive Alleg4Surface_t) :
  always_allocates (driver (allegro w)) → valid_action act →
  display_owns this w m0 s0 →
  ∃ (this' : Alleg4Display.t) (w' : World),
    perform act this w = (Ok this', w') ∧
    display_owns this' w' m0 s0 ∧ driver (allegro w') = driver (allegro w).
Proof.
  intros Hmem Hvalid Howns. destruct act as [ev| | |scale]; simpl.
  - exists this, (geometry_change ev w). split; [done|].
    unfold geometry_change, resize_callback. by destruct (is_maximized ev).
  - by exists this, (display_switch_in_callback w).
  - destruct (flip_owns this w m0 s0 Howns (Hmem _ _))
      as (presented & this' & w' & Hrun & Howns' & Hdrv).
    exists this', w'. by erewrite run_bind by exact Hrun.
  - by apply setScale_owns.
Qed.

Lemma perform_all_owns (acts : list Action) (this : Alleg4Display.t) (w : World)
    (m0 : gmap positive BITMAP) (s0 : gmap positive Alleg4Surface_t) :
  always_allocates (driver (allegro w)) → Forall valid_action acts →
  display_owns this w m0 s0 →
  ∃ (this' : Alleg4Display.t) (w' : World),
    perform_all acts this w = (Ok this', w') ∧ display_owns this' w' m0 s0.
Proof.
  revert this w. induction acts as [|act acts IH]; intros this w Hmem Hvalid Howns.
  - by exists this, w.
  - apply Forall_cons in Hvalid as [Hact Hacts].
    destruct (perform_owns act this w m0 s0 Hmem Hact Howns)
      as (this1 & w1 & Hrun1 & Howns1 & Hdrv1).
    destruct (IH this1 w1) as (this' & w' & Hrun & Howns');
      [by rewrite Hdrv1|done|done|].
    exists this', w'. simpl. by erewrite run_bind by exact Hrun1.
Qed.

Lemma dispose_owns (this : Alleg4Display.t) (w : World)
    (m0 : gmap positive BITMAP) (s0 : gmap positive Alleg4Surface_t) :
  display_owns this w m0 s0 →
  ∃ w' : World,
    Alleg4Display_dispose this w = (Ok (), w') ∧
    bitmaps (allegro w') = m0 ∧ surfaces w' = s0 ∧
    screen (allegro w') = NULL ∧
    SCREEN_W (allegro w') = 0 ∧ SCREEN_H (allegro w') = 0.
Proof.
  intros [_ (p & b & ps & B & S & Hp & Hscr & Hpsb & Hb & Hps & Hs0
             & Hbitmaps & Hsurfaces)].
  assert (Hsurf : surfaces w !! p = Some {| m_bmp := Some b; m_destroy := AutoDestroy |})
    by (rewrite Hsurfaces; apply lookup_insert_eq).
  unfold Alleg4Display_dispose. rewrite Hp.
  erewrite run_bind by (apply run_dispose; exact Hsurf). simpl.
  unfold mbind, M_bind, call, set_gfx_mode_text; simpl. rewrite Hscr; simpl.
  eexists. split; [reflexivity|]. simpl.
  split; [|split; [|done]].
  - rewrite Hbitmaps, delete_insert_id by (by rewrite lookup_insert_ne).
    by rewrite delete_insert_id.
  - by rewrite Hsurfaces, delete_insert_id.
Qed.

(** X10: a display gives back what it took.  On a machine that refuses
    nothing and always allocates, a display created at a scale of at
    least 1, taken through any run of notifications, flips and changes
    of scale (to scales of at least 1) and then disposed of leaves
    allocated exactly the bitmaps and the surfaces that were allocated
    before its creation; the graphics mode is closed, [screen] is
    null. *)
Theorem X10_display_lifetime_frees_all (width height scale : Z)
    (acts : list Action) (w : World) :
  refusal (allegro w) width height = None →
  always_allocates (driver (allegro w)) →
  1 ≤ scale → Forall valid_action acts →
  ∃ w' : World,
    lifetime width height scale acts w = (Ok (), w') ∧
    bitmaps (allegro w') = bitmaps (allegro w) ∧
    surfaces w' = surfaces w ∧
    screen (allegro w') = NULL.
Proof.
  intros Hrefusal Hmem Hscale Hvalid.
  destruct (createDisplay_owns width height scale w Hrefusal Hscale (Hmem _ _))
    as (this0 & w0 & Hrun0 & Howns0 & Hdrv0).
  destruct (perform_all_owns acts this0 w0 (bitmaps (allegro w)) (surfaces w))
    as (this1 & w1 & Hrun1 & Howns1); [by rewrite Hdrv0|done|done|].
  destruct (dispose_owns this1 w1 _ _ Howns1) as (w' & Hrun & Hb & Hs & Hscr & _).
  exists w'. unfold lifetime, created_then.
  erewrite run_bind.
  2:{ erewrite run_bind by exact Hrun0. exact Hrun1. }
  done.
Qed.

Lemma X10_display_lifetime_frees_all_witness :
  let acts := [act_setScale 2; act_geometry_change resize_by_hand; act_switch_in;
               act_flip; act_flip; act_setScale 3; act_flip] in
  let w := two_surfaces in
  (refusal (allegro w) 64 48 = None ∧ always_allocates (driver (allegro w)) ∧
   1 ≤ 1 ∧ Forall valid_action acts) ∧
  ∃ w' : World,
    lifetime 64 48 1 acts w = (Ok (), w') ∧
    bitmaps (allegro w') = bitmaps (allegro w) ∧
    surfaces w' = surfaces w ∧
    screen (allegro w') = NULL.
Proof.
  intros acts w.
  assert (H1 : refusal (allegro w) 64 48 = None) by reflexivity.
  assert (H2 : always_allocates (driver (allegro w))) by exact desktop_always_allocates.
  assert (H3 : 1 ≤ 1) by lia.
  assert (H4 : Forall valid_action acts) by (repeat constructor; simpl; lia).
  split; [exact (conj H1 (conj H2 (conj H3 H4)))|].
  exact (X10_display_lifetime_frees_all 64 48 1 acts w H1 H2 H3 H4).
Defined.

(** ** Uses of the factories *)

(** X11: a surface gives back what it took.  Whether Allegro allocates
    the buffer or not, [createSurface] followed by [dispose] of the
    surface returns, and leaves allocated exactly the bitmaps and the
    surfaces that were allocated before; Allegro has been called twice,
    to create and to destroy. *)
Theorem X11_surface_lifetime_frees_all (width height : Z) (w : World) :
  ∃ (w' : World) (bmp : ptr),
    surface_lifetime width height w = (Ok (), w') ∧
    bitmaps (allegro w') = bitmaps (allegro w) ∧
    surfaces w' = surfaces w ∧
    calls (allegro w') = calls (allegro w) ++
      [call_create_bitmap width height; call_destroy_bitmap bmp] ∧
    bmp = (if drv_can_alloc (driver (allegro w)) width height
           then Some (fresh (dom (bitmaps (allegro w)))) else NULL).
Proof.
  unfold surface_lifetime, Alleg4System.createSurface.
  destruct (drv_can_alloc _ _ _) eqn:Hmem.
  - erewrite run_bind by (apply run_create_ok; exact Hmem).
    erewrite run_dispose by apply lookup_insert_eq. simpl.
    do 2 eexists. split; [reflexivity|]. simpl.
    split; [apply delete_insert_id, fresh_unallocated|].
    split; [apply delete_insert_id, fresh_unallocated|].
    split; [by rewrite <- app_assoc|done].
  - erewrite run_bind.
    2:{ unfold Alleg4Surface.create, mbind, M_bind, call.
        rewrite run_create_bitmap, Hmem. apply run_new. }
    erewrite run_dispose by apply lookup_insert_eq. simpl.
    do 2 eexists. split; [reflexivity|]. simpl.
    split; [done|].
    split; [apply delete_insert_id, fresh_unallocated|].
    split; [by rewrite <- app_assoc|done].
Qed.

(** X12: the surface that [createSurfaceFromNativeHandle] makes owns
    the handle even when the handle is the buffer of another surface.
    If the native handle of the backbuffer of a display is wrapped and
    the wrapper disposed of, the calls return, Allegro has been called
    once, to destroy the bitmap of the backbuffer, and that bitmap is
    not allocated any more; the surfaces allocated are the ones there
    were, and the backbuffer surface of the display still holds the
    pointer to the bitmap that was freed. *)
Theorem X12_wrapped_backbuffer_is_freed (this : Alleg4Display.t) (w : World)
    (p b : positive) (B : BITMAP) :
  backbuffer_at this w p b B →
  ∃ w' : World,
    wrap_backbuffer_and_dispose this w = (Ok (), w') ∧
    surfaces w' = surfaces w ∧
    bitmaps (allegro w') = delete b (bitmaps (allegro w)) ∧
    calls (allegro w') = calls (allegro w) ++ [call_destroy_bitmap (Some b)] ∧
    Alleg4Surface.nativeHandle (Alleg4Display.getSurface this) w'
      = (Ok (Some b), w') ∧
    bitmaps (allegro w') !! b = None.
Proof.
  intros (Hp & Hs & Hb & _).
  unfold wrap_backbuffer_and_dispose, Alleg4Display.getSurface.
  rewrite Hp.
  erewrite (run_bind (Alleg4Surface.nativeHandle _)).
  2:{ unfold Alleg4Surface.nativeHandle.
      erewrite run_bind by (apply run_members; exact Hs). reflexivity. }
  simpl. unfold Alleg4System.createSurfaceFromNativeHandle.
  erewrite run_bind by apply run_new.
  erewrite run_dispose by apply lookup_insert_eq. simpl.
  rewrite delete_insert_id by apply fresh_unallocated.
  set (w' := set_surfaces (surfaces w) _).
  assert (Hs' : surfaces w' !! p = Some {| m_bmp := Some b; m_destroy := AutoDestroy |})
    by exact Hs.
  exists w'. split; [done|]. split; [done|]. split; [done|].
  split; [done|]. split; [|apply lookup_delete_eq].
  unfold Alleg4Surface.nativeHandle.
  erewrite run_bind by (apply run_members; exact Hs'). reflexivity.
Qed.

Lemma small_display_backbuffer :
  backbuffer_at small_display small_display_world 1%positive 2%positive
    (blank_bitmap 64 48).
Proof.
  split; [reflexivity|]. split; [vm_compute; reflexivity|].
  split; [vm_compute; reflexivity|].
  exists 1%positive, (blank_bitmap 64 48).
  split; [vm_compute; reflexivity|]. split; [vm_compute; reflexivity|]. done.
Defined.

Lemma X12_wrapped_backbuffer_is_freed_witness :
  let this := small_display in
  let w := small_display_world in
  backbuffer_at this w 1%positive 2%positive (blank_bitmap 64 48) ∧
  ∃ w' : World,
    wrap_backbuffer_and_dispose this w = (Ok (), w') ∧
    surfaces w' = surfaces w ∧
    bitmaps (allegro w') = delete 2%positive (bitmaps (allegro w)) ∧
    calls (allegro w') = calls (allegro w) ++ [call_destroy_bitmap (Some 2%positive)] ∧
    Alleg4Surface.nativeHandle (Alleg4Display.getSurface this) w'
      = (Ok (Some 2%positive), w') ∧
    bitmaps (allegro w') !! 2%positive = None.
Proof.
  intros this w.
  split; [exact small_display_backbuffer|].
  exact (X12_wrapped_backbuffer_is_freed this w 1%positive 2%positive _
           small_display_backbuffer).
Defined.

(** ** When [flip] presents *)

Lemma window_resize_testbit (w : World) :
  bool_decide (window_resize w) = Z.testbit (display_flags w) 1.
Proof.
  unfold window_resize, DISPLAY_FLAG_WINDOW_RESIZE. rewrite land_2.
  destruct (Z.testbit (display_flags w) 1);
    [by rewrite bool_decide_eq_true_2|].
  rewrite bool_decide_eq_false_2; [done|]. intros H. by apply H.
Qed.

Lemma display_flags_geometry_change ev w :
  display_flags (geometry_change ev w)
  = Z.lor (display_flags w) DISPLAY_FLAG_WINDOW_RESIZE.
Proof. unfold geometry_change, resize_callback. by destruct (is_maximized ev). Qed.

Lemma perform_resize_pending (act : Action) (this : Alleg4Display.t) (w : World) :
  bool_decide (window_resize (perform act this w).2)
  = resize_pending_after act (bool_decide (window_resize w)).
Proof.
  rewrite !window_resize_testbit.
  destruct act as [ev| | |scale]; simpl resize_pending_after.
  - change (perform (act_geometry_change ev) this w).2 with (geometry_change ev w).
    rewrite display_flags_geometry_change. unfold DISPLAY_FLAG_WINDOW_RESIZE.
    by rewrite Z.lor_spec, orb_true_r.
  - change (perform act_switch_in this w).2 with (display_switch_in_callback w).
    change (display_flags (display_switch_in_callback w))
      with (Z.lor (display_flags w) 1).
    by rewrite Z.lor_spec, orb_false_r.
  - unfold perform.
    rewrite (state_after_bind_ret (Alleg4Display.flip this) snd), flip_flags.
    unfold DISPLAY_FLAG_WINDOW_RESIZE. rewrite land_2.
    destruct (Z.testbit (display_flags w) 1) eqn:Hbit.
    + rewrite bool_decide_eq_true_2 by done. by rewrite Z.lxor_spec, Hbit.
    + rewrite bool_decide_eq_false_2; [done|]. intros H. by apply H.
  - unfold perform.
    by destruct (keeps_setScale same_statics same_statics_allegro
                   same_statics_surfaces scale this w) as [-> _].
Qed.

Lemma perform_all_resize_pending (acts : list Action) (this this' : Alleg4Display.t)
    (w w' : World) :
  perform_all acts this w = (Ok this', w') →
  bool_decide (window_resize w')
  = resize_pending acts (bool_decide (window_resize w)).
Proof.
  revert this w. induction acts as [|act acts IH]; intros this w Hrun.
  - by injection Hrun as <- <-.
  - simpl in Hrun. unfold mbind, M_bind in Hrun.
    pose proof (perform_resize_pending act this w) as Hact.
    destruct (perform act this w) as [[this1|e|] w1]; [|done..].
    simpl in Hact. unfold resize_pending; simpl. rewrite <- Hact.
    by apply (IH this1 w1).
Qed.

(** X13: [flip] returns [false] once for each burst of changes of
    geometry.  Along a run of a display on a machine that always
    allocates, a [flip] returns [false] exactly when a change of
    geometry has been notified since the [flip] before it (or, without
    one before it, since the start, with the resize flag as it was
    then), and [true] otherwise; notifications of focus and changes of
    scale do not count. *)
Theorem X13_flip_after_run (acts : list Action) (this : Alleg4Display.t)
    (w : World) :
  display_ok this w →
  always_allocates (driver (allegro w)) → Forall valid_action acts →
  ∃ (this' this'' : Alleg4Display.t) (w' w'' : World),
    perform_all acts this w = (Ok this', w') ∧
    Alleg4Display.flip this' w'
      = (Ok (negb (resize_pending acts (bool_decide (window_resize w))), this''), w'').
Proof.
  intros Hok Hmem Hvalid.
  destruct (perform_all_display_ok acts this w Hmem Hvalid Hok)
    as (this' & w' & Hrun & Hok' & Hdrv).
  rewrite <- Hdrv in Hmem.
  destruct (flip_display_ok this' w' Hok' (Hmem _ _))
    as (presented & this'' & w'' & Hflip & _ & _ & Hpresented).
  exists this', this'', w', w''. split; [done|].
  rewrite <- (perform_all_resize_pending acts this this' w w' Hrun).
  rewrite Hflip, Hpresented. do 3 f_equal.
  unfold window_resize.
  destruct (decide (Z.land (display_flags w') DISPLAY_FLAG_WINDOW_RESIZE = 0)) as [H0|H0].
  - rewrite bool_decide_eq_true_2 by done.
    rewrite bool_decide_eq_false_2; [done|]. intros H. by apply H.
  - rewrite bool_decide_eq_false_2 by done.
    by rewrite bool_decide_eq_true_2.
Qed.

Lemma X13_flip_after_run_witness :
  let acts := [act_geometry_change resize_by_hand; act_flip; act_switch_in;
               act_setScale 2] in
  let this := small_display in
  let w := small_display_world in
  (display_ok this w ∧ always_allocates (driver (allegro w)) ∧
   Forall valid_action acts) ∧
  ∃ (this' this'' : Alleg4Display.t) (w' w'' : World),
    perform_all acts this w = (Ok this', w') ∧
    Alleg4Display.flip this' w'
      = (Ok (negb (resize_pending acts (bool_decide (window_resize w))), this''), w'').
Proof.
  intros acts this w.
  assert (H2 : always_allocates (driver (allegro w))) by (by intros bw bh).
  assert (H3 : Forall valid_action acts) by (repeat constructor; simpl; lia).
  split; [exact (conj small_display_ok (conj H2 H3))|].
  exact (X13_flip_after_run acts this w small_display_ok H2 H3).
Defined.
